(** * The version-aware node client of the desktop wallet

    A shallow embedding of [src/renderer/services/client.js] (the
    [ClientService] class) and of [src/renderer/store/modules/peer/system.js]
    (the peer-system actions), with the properties the specification states
    about them.

    JavaScript values are embedded as a tree type: objects are finite maps
    from property names to values ([gmap string value]), arrays are lists.
    The numbers of the embedding are the integer-valued doubles, [NaN] and
    the two infinities: every quantity of the node API this code computes
    with (balances, amounts and fees in arktoshi, counts, pages, limits) is
    an integer.  Strings are the byte strings of Rocq; white space is ASCII
    white space. *)

From stdpp Require Import gmap strings list fin_maps.
From Stdlib Require Import ZArith Lia Ascii.

Local Open Scope Z_scope.

(** ** Numbers *)

Module Num.

(** [Int z] is the double whose value is the integer [z]; the two zeros are
    not told apart (nothing in this code divides, or reads a sign of zero). *)
Inductive number :=
| NaN
| Inf (negative : bool)
| Int (z : Z).

(** Round a magnitude to 53 significant bits, to nearest, ties to even. *)
Definition round_mag (a : Z) : Z :=
  if a <? 2 ^ 53 then a
  else
    let e := Z.log2 a - 52 in
    let q := Z.shiftr a e in
    let r := a - Z.shiftl q e in
    let half := 2 ^ (e - 1) in
    let q' := if (half <? r) || ((r =? half) && Z.odd q) then q + 1 else q in
    Z.shiftl q' e.

(** The Number value for a mathematical integer. *)
Definition of_Z (z : Z) : number :=
  let m := round_mag (Z.abs z) in
  if 2 ^ 1024 <=? m then Inf (z <? 0) else Int (Z.sgn z * m).

(** [z] is (the value of) a double. *)
Definition is_double (z : Z) : bool :=
  match of_Z z with
  | Int z' => z' =? z
  | _ => false
  end.

Definition wf (n : number) : bool :=
  match n with
  | Int z => is_double z
  | _ => true
  end.

Definition neg (n : number) : number :=
  match n with
  | NaN => NaN
  | Inf b => Inf (negb b)
  | Int z => Int (- z)
  end.

Definition add (x y : number) : number :=
  match x, y with
  | NaN, _ | _, NaN => NaN
  | Inf a, Inf b => if Bool.eqb a b then Inf a else NaN
  | Inf a, Int _ | Int _, Inf a => Inf a
  | Int a, Int b => of_Z (a + b)
  end.

Definition sub (x y : number) : number := add x (neg y).

Definition mul (x y : number) : number :=
  match x, y with
  | NaN, _ | _, NaN => NaN
  | Inf a, Inf b => Inf (xorb a b)
  | Inf a, Int z | Int z, Inf a =>
      if z =? 0 then NaN else Inf (xorb a (z <? 0))
  | Int a, Int b => of_Z (a * b)
  end.


Definition eqb (x y : number) : bool :=
  match x, y with
  | Int a, Int b => a =? b
  | Inf a, Inf b => Bool.eqb a b
  | _, _ => false
  end.

End Num.

Export Num.

(** ** Strings: decimal numerals, [Number::toString], [parseInt] *)

Module Str.

Definition digit_char (d : Z) : ascii :=
  ascii_of_nat (48 + Z.to_nat d).

(** The decimal digits of [n >= 0], least significant first. *)
Fixpoint digits_rev (fuel : nat) (n : Z) : list Z :=
  match fuel with
  | O => []
  | S fuel' =>
      n mod 10 :: (if n <? 10 then [] else digits_rev fuel' (n / 10))
  end.

Definition digits (n : Z) : list Z :=
  rev (digits_rev (S (Z.to_nat (Z.log2 n))) n).

Definition string_of_digits (ds : list Z) : string :=
  foldr (fun d s => String (digit_char d) s) EmptyString ds.

(** The decimal numeral of [n >= 0]. *)
Definition decimal (n : Z) : string := string_of_digits (digits n).

Definition zeros (p : Z) : string :=
  string_of_digits (repeat 0 (Z.to_nat p)).

(** Drop the trailing zeros of [s > 0], counting them into the exponent. *)
Fixpoint strip_zeros (fuel : nat) (s p : Z) : Z * Z :=
  match fuel with
  | O => (s, p)
  | S fuel' =>
      if (0 <? s) && (s mod 10 =? 0) then strip_zeros fuel' (s / 10) (p + 1)
      else (s, p)
  end.

(** The shortest decimal [s * 10^p] whose Number value is the double
    [x > 0]: the fewest digits first, and the closest to [x] among the
    candidates with that many digits. *)
Fixpoint shortest_go (fuel : nat) (x p : Z) : Z * Z :=
  let lo := x / 10 ^ p in
  let hi := lo + 1 in
  let ok s := Num.eqb (Num.of_Z (s * 10 ^ p)) (Int x) in
  let pick :=
    if ok lo && ok hi then
      Some (if x - lo * 10 ^ p <? hi * 10 ^ p - x then lo
            else if hi * 10 ^ p - x <? x - lo * 10 ^ p then hi
            else if Z.even lo then lo else hi)
    else if ok lo then Some lo
    else if ok hi then Some hi
    else None in
  match pick, fuel with
  | Some s, _ => (s, p)
  | None, O => (x, 0)
  | None, S fuel' => if p <=? 0 then (x, 0) else shortest_go fuel' x (p - 1)
  end.

Definition shortest (x : Z) : Z * Z :=
  let n := Z.of_nat (length (digits x)) in
  let '(s, p) := shortest_go (Z.to_nat n) x (n - 1) in
  strip_zeros (Z.to_nat n) s p.

(** [Number::toString] in radix 10 on a magnitude [x > 0]. *)
Definition magnitude_to_string (x : Z) : string :=
  let '(s, p) := shortest x in
  let ds := digits s in
  let n := Z.of_nat (length ds) + p in
  if n <=? 21 then string_of_digits ds +:+ zeros p
  else
    match ds with
    | [] => ""
    | [d] => string_of_digits [d] +:+ "e+" +:+ decimal (n - 1)
    | d :: rest =>
        string_of_digits [d] +:+ "." +:+ string_of_digits rest
          +:+ "e+" +:+ decimal (n - 1)
    end.

Definition number_to_string (n : number) : string :=
  match n with
  | NaN => "NaN"
  | Inf false => "Infinity"
  | Inf true => "-Infinity"
  | Int 0 => "0"
  | Int (Zpos p) => magnitude_to_string (Zpos p)
  | Int (Zneg p) => "-" +:+ magnitude_to_string (Zpos p)
  end.

(** White space that [parseInt] skips (the ASCII part of it). *)
Definition is_ws (c : ascii) : bool :=
  let n := nat_of_ascii c in
  ((9 <=? n) && (n <=? 13))%nat || (n =? 32)%nat.

Fixpoint skip_ws (s : string) : string :=
  match s with
  | String c s' => if is_ws c then skip_ws s' else s
  | EmptyString => s
  end.

(** The value of the character [c] as a digit in the given radix. *)
Definition digit_val (radix : Z) (c : ascii) : option Z :=
  let n := Z.of_nat (nat_of_ascii c) in
  let d :=
    if (48 <=? n) && (n <=? 57) then Some (n - 48)
    else if (97 <=? n) && (n <=? 122) then Some (n - 87)
    else if (65 <=? n) && (n <=? 90) then Some (n - 55)
    else None in
  match d with
  | Some d => if d <? radix then Some d else None
  | None => None
  end.

(** Read the longest prefix of digits; [None] when there is none. *)
Fixpoint read_digits (radix : Z) (s : string) (acc : option Z) : option Z :=
  match s with
  | String c s' =>
      match digit_val radix c with
      | Some d => read_digits radix s' (Some (radix * default 0 acc + d))
      | None => acc
      end
  | EmptyString => acc
  end.

Definition take_sign (s : string) : bool * string :=
  match s with
  | String "-"%char s' => (true, s')
  | String "+"%char s' => (false, s')
  | _ => (false, s)
  end.

Definition take_radix (s : string) : Z * string :=
  match s with
  | String "0"%char (String "x"%char s') => (16, s')
  | String "0"%char (String "X"%char s') => (16, s')
  | _ => (10, s)
  end.

(** [parseInt(s)] on a string, no radix argument. *)
Definition parseInt_string (s : string) : number :=
  let '(negative, s1) := take_sign (skip_ws s) in
  let '(radix, s2) := take_radix s1 in
  match read_digits radix s2 None with
  | None => NaN
  | Some n => Num.of_Z (if negative then - n else n)
  end.

Definition starts_with (p s : string) : bool :=
  String.prefix p s.

End Str.

Export Str.

(** ** Values *)

#[warnings="-register-all"]
Inductive value :=
| VUndef
| VNull
| VBool (b : bool)
| VNum (n : number)
| VStr (s : string)
| VDate (t : number)
| VArr (l : list value)
| VObj (m : gmap string value).

(** What a JavaScript computation can raise.  [Unmodelled] marks the few
    operations on which the embedding stops instead of following the
    language (a named property stored on an array, a date turned into a
    string); it is never the result of a computation on plain objects. *)
Inductive exn :=
| TypeError
| Rejected (reason : value)
| Unmodelled.

Inductive outcome (A : Type) :=
| Ok (a : A)
| Err (e : exn).
Arguments Ok {A} a.
Arguments Err {A} e.

#[global] Instance outcome_ret : MRet outcome := @Ok.
#[global] Instance outcome_bind : MBind outcome := λ A B f x,
  match x with
  | Ok a => f a
  | Err e => Err e
  end.

Fixpoint mapO {A B} (f : A → outcome B) (l : list A) : outcome (list B) :=
  match l with
  | [] => Ok []
  | x :: l' => y ← f x; ys ← mapO f l'; Ok (y :: ys)
  end.

Definition obj (kvs : list (string * value)) : value :=
  VObj (list_to_map kvs).

Definition prop (m : gmap string value) (k : string) : value :=
  default VUndef (m !! k).

(** The index a property name denotes, if it is a canonical numeral. *)
Definition index_of_key (k : string) : option nat :=
  match read_digits 10 k None with
  | Some n => if String.eqb (decimal n) k then Some (Z.to_nat n) else None
  | None => None
  end.

Definition char_at (s : string) (i : nat) : value :=
  match String.get i s with
  | Some c => VStr (String c EmptyString)
  | None => VUndef
  end.

(** [v.k]: own properties only.  The property names this program reads
    are none of the members of the built-in prototypes. *)
Definition get_prop (v : value) (k : string) : outcome value :=
  match v with
  | VUndef | VNull => Err TypeError
  | VObj m => Ok (prop m k)
  | VArr l =>
      if String.eqb k "length" then Ok (VNum (Int (Z.of_nat (length l))))
      else Ok (default VUndef (i ← index_of_key k; l !! i))
  | VStr s =>
      if String.eqb k "length" then Ok (VNum (Int (Z.of_nat (String.length s))))
      else Ok (default VUndef (i ← index_of_key k; Some (char_at s i)))
  | VBool _ | VNum _ | VDate _ => Ok VUndef
  end.

(** [v.k = x] in strict mode (the sources are ES modules). *)
Definition set_prop (v : value) (k : string) (x : value) : outcome value :=
  match v with
  | VObj m => Ok (VObj (<[k := x]> m))
  | VArr _ | VDate _ => Err Unmodelled
  | _ => Err TypeError
  end.

(** [delete v.k] in strict mode. *)
Definition delete_prop (v : value) (k : string) : outcome value :=
  match v with
  | VUndef | VNull => Err TypeError
  | VObj m => Ok (VObj (delete k m))
  | VArr l =>
      if String.eqb k "length" then Err TypeError
      else match index_of_key k with
           | Some i => if (i <? length l)%nat then Err Unmodelled else Ok v
           | None => Ok v
           end
  | VStr s =>
      if String.eqb k "length" then Err TypeError
      else match index_of_key k with
           | Some i => if (i <? String.length s)%nat then Err TypeError else Ok v
           | None => Ok v
           end
  | _ => Ok v
  end.

(** ToBoolean. *)
Definition truthy (v : value) : bool :=
  match v with
  | VUndef | VNull => false
  | VBool b => b
  | VNum NaN => false
  | VNum (Int z) => negb (z =? 0)
  | VNum (Inf _) => true
  | VStr s => negb (String.eqb s "")
  | VDate _ | VArr _ | VObj _ => true
  end.

(** [v === n] for a number literal [n], [v === s] for a string, [v !== null]. *)
Definition is_number (n : Z) (v : value) : bool :=
  match v with
  | VNum (Int z) => z =? n
  | _ => false
  end.

Definition is_string (s : string) (v : value) : bool :=
  match v with
  | VStr s' => String.eqb s' s
  | _ => false
  end.

Definition is_not_null (v : value) : bool :=
  match v with
  | VNull => false
  | _ => true
  end.

(** ToString.  A plain object prints as [[object Object]] unless it has an
    own [toString] property, which (not being a function) makes the
    conversion fail; an array joins its elements with commas. *)
Fixpoint to_string (v : value) : outcome string :=
  match v with
  | VUndef => Ok "undefined"
  | VNull => Ok "null"
  | VBool b => Ok (if b then "true" else "false")
  | VNum n => Ok (number_to_string n)
  | VStr s => Ok s
  | VDate _ => Err Unmodelled
  | VArr l =>
      let element x :=
        match x with
        | VUndef | VNull => Ok ""
        | _ => to_string x
        end in
      (fix join (l : list value) : outcome string :=
         match l with
         | [] => Ok ""
         | [x] => element x
         | x :: l' => s ← element x; r ← join l'; Ok (s +:+ "," +:+ r)
         end) l
  | VObj m =>
      match m !! "toString" with
      | Some _ => Err TypeError
      | None => Ok "[object Object]"
      end
  end.

(** ToPrimitive, no hint. *)
Definition to_primitive (v : value) : outcome value :=
  match v with
  | VArr _ | VObj _ | VDate _ => s ← to_string v; Ok (VStr s)
  | _ => Ok v
  end.

(** ToNumber on a primitive that is not a string. *)
Definition to_number (v : value) : number :=
  match v with
  | VNull => Int 0
  | VBool b => Int (if b then 1 else 0)
  | VNum n => n
  | _ => NaN
  end.

Definition is_str (v : value) : bool :=
  match v with
  | VStr _ => true
  | _ => false
  end.

(** [a + b]. *)
Definition js_add (a b : value) : outcome value :=
  pa ← to_primitive a;
  pb ← to_primitive b;
  if is_str pa || is_str pb then
    sa ← to_string pa; sb ← to_string pb; Ok (VStr (sa +:+ sb))
  else Ok (VNum (Num.add (to_number pa) (to_number pb))).

(** [parseInt(v)]. *)
Definition parseInt (v : value) : outcome number :=
  s ← to_string v; Ok (parseInt_string s).

(** [Object.keys(v).length > 0] *)
Definition has_keys (v : value) : bool :=
  match v with
  | VObj m => negb (bool_decide (m = ∅))
  | VArr l => negb (bool_decide (l = []))
  | VStr s => negb (String.eqb s "")
  | _ => false
  end.

(** The own enumerable properties [{...v}] copies. *)
Definition own_props (v : value) : gmap string value :=
  match v with
  | VObj m => m
  | VArr l =>
      list_to_map (imap (λ i x, (decimal (Z.of_nat i), x)) l)
  | VStr s =>
      list_to_map (imap (λ i c, (decimal (Z.of_nat i), VStr (String c EmptyString)))
                        (Stdlib.Strings.String.list_ascii_of_string s))
  | _ => ∅
  end.

(** [v.substring(1)]: only a string has the method. *)
Definition substring_from_1 (v : value) : outcome value :=
  match v with
  | VStr (String _ s) => Ok (VStr s)
  | VStr EmptyString => Ok (VStr "")
  | _ => Err TypeError
  end.

(** [castArray(v)] of lodash, for one argument. *)
Definition castArray (v : value) : value :=
  match v with
  | VArr _ => v
  | _ => VArr [v]
  end.

(** ** The pattern of [__parseCurrentPeer]

    [/(https?:\/\/)([a-zA-Z0-9.-_]+):([0-9]+)/], matched the way a
    backtracking matcher does: the leftmost start first, every quantifier
    greedy, the second group giving characters back one at a time until a
    colon and a digit follow. *)

Module HostPattern.

Definition in_range (lo hi : nat) (c : ascii) : bool :=
  ((lo <=? nat_of_ascii c) && (nat_of_ascii c <=? hi))%nat.

(** [[0-9]] *)
Definition is_port_char (c : ascii) : bool := in_range 48 57 c.

(** [[a-zA-Z0-9.-_]]: the letters, the digits, and the range from [.] to
    [_] (which has the colon and the slash in it, and not the hyphen). *)
Definition is_host_char (c : ascii) : bool :=
  in_range 97 122 c || in_range 65 90 c || in_range 48 57 c || in_range 46 95 c.

Fixpoint take_while (p : ascii → bool) (s : list ascii) : list ascii :=
  match s with
  | c :: s' => if p c then c :: take_while p s' else []
  | [] => []
  end.

Fixpoint strip_prefix (p s : list ascii) : option (list ascii) :=
  match p, s with
  | [], _ => Some s
  | c :: p', d :: s' => if Ascii.eqb c d then strip_prefix p' s' else None
  | _ :: _, [] => None
  end.

(** [:([0-9]+)] at the head of [s]. *)
Definition match_port (s : list ascii) : option (list ascii) :=
  match s with
  | ":"%char :: rest =>
      match take_while is_port_char rest with
      | [] => None
      | port => Some port
      end
  | _ => None
  end.

(** [([a-zA-Z0-9.-_]+):([0-9]+)] with at most [n] characters in the first
    group: the longest first. *)
Fixpoint match_host (n : nat) (s : list ascii)
  : option (list ascii * list ascii) :=
  match n with
  | O => None
  | S n' =>
      match match_port (drop n s) with
      | Some port => Some (take n s, port)
      | None => match_host n' s
      end
  end.

Definition match_after (scheme : string) (s : list ascii)
  : option (string * string * string) :=
  rest ← strip_prefix (Stdlib.Strings.String.list_ascii_of_string scheme) s;
  '(ip, port) ← match_host (length (take_while is_host_char rest)) rest;
  Some (scheme, Stdlib.Strings.String.string_of_list_ascii ip,
        Stdlib.Strings.String.string_of_list_ascii port).

(** The pattern at the head of [s]: [s?] takes the [s] when it can. *)
Definition match_here (s : list ascii) : option (string * string * string) :=
  match match_after "https://" s with
  | Some groups => Some groups
  | None => match_after "http://" s
  end.

(** [pattern.exec(s)]: the groups 1, 2 and 3 of the leftmost match. *)
Fixpoint exec_from (s : list ascii) : option (string * string * string) :=
  match match_here s with
  | Some groups => Some groups
  | None =>
      match s with
      | [] => None
      | _ :: s' => exec_from s'
      end
  end.

Definition exec (s : string) : option (string * string * string) :=
  exec_from (Stdlib.Strings.String.list_ascii_of_string s).

End HostPattern.

(** ** Effects

    Everything outside the two source files is reached through an effect:
    the node API client (['@arkecosystem/client']), the store (getters and
    dispatched actions), the event bus and the logger.  A program is a tree
    of effects; the environment answers each one with a value or with an
    error (a rejected promise, or an exception). *)

Module ApiClient.

Record t := {
  http_host : value;            (* client.http.host *)
  http_timeout : option value;  (* client.http.timeout; [None]: the default *)
  version : option value        (* client.version; [None]: the default *)
}.

(** [new ApiClient(host)] *)
Definition new (host : value) : t :=
  {| http_host := host; http_timeout := None; version := None |}.

Definition setConnection (host : value) (c : t) : t :=
  {| http_host := host; http_timeout := http_timeout c; version := version c |}.

Definition setVersion (apiVersion : value) (c : t) : t :=
  {| http_host := http_host c;
     http_timeout := http_timeout c;
     version := Some apiVersion |}.

(** [new ApiClient(host, apiVersion)] *)
Definition new_versioned (host apiVersion : value) : t :=
  {| http_host := host; http_timeout := None; version := Some apiVersion |}.

(** [client.http.timeout = timeout] *)
Definition set_timeout (timeout : value) (c : t) : t :=
  {| http_host := http_host c;
     http_timeout := Some timeout;
     version := version c |}.

End ApiClient.

Inductive effect :=
| Request (client : ApiClient.t) (resource method : string) (args : list value)
| Getter (name : string) (args : list value)
| Dispatch (action : string) (args : list value)
| Emit (event : string)
| LogError (error : exn)
| FindPeers (network : value) (version : option value) (peers : value).

Inductive prog (A : Type) :=
| Ret (a : A)
| Throw (e : exn)
| Do (eff : effect) (k : outcome value → prog A).
Arguments Ret {A} a.
Arguments Throw {A} e.
Arguments Do {A} eff k.

Fixpoint prog_bind {A B} (f : A → prog B) (p : prog A) : prog B :=
  match p with
  | Ret a => f a
  | Throw e => Throw e
  | Do eff k => Do eff (λ r, prog_bind f (k r))
  end.

#[global] Instance prog_ret : MRet prog := @Ret.
#[global] Instance prog_mbind : MBind prog := @prog_bind.

Definition lift {A} (o : outcome A) : prog A :=
  match o with
  | Ok a => Ret a
  | Err e => Throw e
  end.

(** [await effect]: a rejection is thrown at the await. *)
Definition perform (eff : effect) : prog value :=
  Do eff lift.

(** An effect whose result is dropped: a call that returns nothing, or a
    promise that is not awaited. *)
Definition spawn (eff : effect) : prog value :=
  Do eff (λ _, Ret VUndef).

(** [try { p } catch (e) { h e }] *)
Fixpoint catch {A} (p : prog A) (h : exn → prog A) : prog A :=
  match p with
  | Ret a => Ret a
  | Throw e => h e
  | Do eff k => Do eff (λ r, catch (k r) h)
  end.

(** The environment answers an effect, given the effects before it. *)
Definition env := list effect → effect → outcome value.

Fixpoint run {A} (w : env) (trace : list effect) (p : prog A)
  : list effect * outcome A :=
  match p with
  | Ret a => (trace, Ok a)
  | Throw e => (trace, Err e)
  | Do eff k => run w (trace ++ [eff]) (k (w trace eff))
  end.

Definition get (v : value) (k : string) : prog value := lift (get_prop v k).
Definition set (v : value) (k : string) (x : value) : prog value :=
  lift (set_prop v k x).
Definition del (v : value) (k : string) : prog value := lift (delete_prop v k).

(** [v.map(f)] for a callback without effects. *)
Definition array_map (f : value → outcome value) (v : value)
  : outcome (list value) :=
  match v with
  | VArr l => mapO f l
  | _ => Err TypeError
  end.

(** ** The transaction builder of ['@arkecosystem/crypto']

    A draft is the kind of transaction and the fluent calls made on it, in
    order; [getStruct] extracts the structure the draft determines. *)

Module TransactionBuilder.

Inductive kind := Vote | DelegateRegistration | Transfer | SecondSignature.

Inductive step :=
| VotesAsset (votes : value)
| UsernameAsset (username : value)
| Amount (amount : value)
| RecipientId (recipientId : value)
| VendorField (vendorField : value)
| SignatureAsset (secondPassphrase : value)
| Sign (passphrase : value)
| SignWithWif (wif : value)
| SecondSign (secondPassphrase : value).

Record t := { draft_kind : kind; steps : list step }.

Definition call (s : step) (d : t) : t :=
  {| draft_kind := draft_kind d; steps := steps d ++ [s] |}.

Definition vote : t := {| draft_kind := Vote; steps := [] |}.
Definition delegateRegistration : t :=
  {| draft_kind := DelegateRegistration; steps := [] |}.
Definition transfer : t := {| draft_kind := Transfer; steps := [] |}.
Definition secondSignature : t :=
  {| draft_kind := SecondSignature; steps := [] |}.

Definition votesAsset v := call (VotesAsset v).
Definition usernameAsset v := call (UsernameAsset v).
Definition amount v := call (Amount v).
Definition recipientId v := call (RecipientId v).
Definition vendorField v := call (VendorField v).
Definition signatureAsset v := call (SignatureAsset v).
Definition sign v := call (Sign v).
Definition signWithWif v := call (SignWithWif v).
Definition secondSign v := call (SecondSign v).
Definition getStruct (d : t) : t := d.

Definition is_primary (s : step) : bool :=
  match s with
  | Sign _ | SignWithWif _ => true
  | _ => false
  end.

Definition is_second (s : step) : bool :=
  match s with
  | SecondSign _ => true
  | _ => false
  end.

End TransactionBuilder.

(** ** [ClientService] ([src/renderer/services/client.js]) *)

Module ClientService.

Import TransactionBuilder.

Record t := {
  __host : value;
  __version : value;
  client : ApiClient.t
}.

(** [get host], [set host], [get version], [set version] *)
Definition host (this : t) : value := __host this.

Definition set_host (h : value) (this : t) : t :=
  {| __host := h;
     __version := __version this;
     client := ApiClient.setConnection h (client this) |}.

Definition version (this : t) : value := __version this.

Definition set_version (apiVersion : value) (this : t) : t :=
  {| __host := __host this;
     __version := apiVersion;
     client := ApiClient.setVersion apiVersion (client this) |}.

(** The query argument of [fetchTransactions]; a field that the caller's
    object does not have is [None] and reads as [undefined]. *)
Record query := {
  page : option number;
  limit : option number;
  orderBy : option string
}.

Definition default_query : query :=
  {| page := Some (Int 0);
     limit := Some (Int 50);
     orderBy := Some "timestamp:desc" |}.

Definition number_or_undefined (o : option number) : value :=
  match o with
  | Some n => VNum n
  | None => VUndef
  end.

Definition string_or_undefined (o : option string) : value :=
  match o with
  | Some s => VStr s
  | None => VUndef
  end.

(** [(page - 1) * limit] *)
Definition offset (page limit : value) : value :=
  VNum (Num.mul (Num.sub (to_number page) (Int 1)) (to_number limit)).

Definition fetchDelegates (this : t) : prog value :=
  response ← perform (Request (client this) "delegates" "all" []);
  data ← get response "data";
  if is_number 2 (__version this) then get data "data"
  else
    success ← get data "success";
    if truthy success then
      delegates ← get data "delegates";
      mapped ← lift (array_map (λ delegate,
        approval ← get_prop delegate "approval";
        productivity ← get_prop delegate "productivity";
        producedblocks ← get_prop delegate "producedblocks";
        missedblocks ← get_prop delegate "missedblocks";
        rate ← get_prop delegate "rate";
        Ok (VObj (<["rank" := rate]>
                 (<["blocks" := obj [("produced", producedblocks);
                                     ("missed", missedblocks)]]>
                 (<["production" := obj [("approval", approval);
                                         ("productivity", productivity)]]>
                 (own_props delegate)))))) delegates);
      Ret (VArr mapped)
    else Ret (VArr []).

Definition fetchDelegateForged (this : t) (delegate : value) : prog value :=
  forged ← get delegate "forged";
  if truthy forged then get forged "total"
  else
    publicKey ← get delegate "publicKey";
    response ← perform (Request (client this) "delegates" "forged" [publicKey]);
    data ← get response "data";
    success ← get data "success";
    if truthy success then get data "forged"
    else Ret (VNum (Int 0)).

Section Transactions.

(** The date library ([dayjs]) is outside the repository:
    [epoch_date epoch raw] stands for
    [dayjs(epoch).add(raw * 1000).toDate()] and [human_date h] for
    [dayjs(h).toDate()]. *)
Variable epoch_date : value → value → outcome value.
Variable human_date : value → outcome value.

(** The callback of the v1 [map]. *)
Definition v1_transaction (network tx : value) : outcome value :=
  constants ← get_prop network "constants";
  epoch ← get_prop constants "epoch";
  raw ← get_prop tx "timestamp";
  date ← epoch_date epoch raw;
  tx ← set_prop tx "timestamp" date;
  senderId ← get_prop tx "senderId";
  tx ← set_prop tx "sender" senderId;
  recipientId ← get_prop tx "recipientId";
  tx ← set_prop tx "recipient" recipientId;
  tx ← delete_prop tx "senderId";
  delete_prop tx "recipientId".

(** The callback of the v2 [map]. *)
Definition v2_transaction (tx : value) : outcome value :=
  timestamp ← get_prop tx "timestamp";
  human ← get_prop timestamp "human";
  date ← human_date human;
  set_prop tx "timestamp" date.

(** "Add some utilities for each transactions" *)
Definition add_utilities (address : string) (tx : value) : outcome value :=
  sender ← get_prop tx "sender";
  tx ← set_prop tx "isSender" (VBool (is_string address sender));
  recipient ← get_prop tx "recipient";
  tx ← set_prop tx "isReceiver" (VBool (is_string address recipient));
  amount ← get_prop tx "amount";
  fee ← get_prop tx "fee";
  total ← js_add amount fee;
  set_prop tx "totalAmount" total.

Definition fetchTransactions (this : t) (address : string) (q : option query)
  : prog value :=
  let q := default default_query q in
  let page := number_or_undefined (page q) in
  let limit := number_or_undefined (limit q) in
  let orderBy := string_or_undefined (orderBy q) in
  '(transactions, totalCount) ←
    (if is_number 1 (__version this) then
       network ← perform (Getter "session/network" []);
       response ← perform (Request (client this) "transactions" "all"
         [obj [("recipientId", VStr address);
               ("senderId", VStr address);
               ("orderBy", orderBy);
               ("offset", offset page limit);
               ("limit", limit)]]);
       data ← get response "data";
       success ← get data "success";
       if truthy success then
         txs ← get data "transactions";
         transactions ← lift (array_map (v1_transaction network) txs);
         count ← get data "count";
         totalCount ← lift (parseInt count);
         Ret (transactions, VNum totalCount)
       else Ret ([], VNum (Int 0))
     else
       response ← perform (Request (client this) "wallets" "transactions"
         [VStr address; obj [("limit", limit); ("page", page)]]);
       data ← get response "data";
       txs ← get data "data";
       transactions ← lift (array_map v2_transaction txs);
       meta ← get data "meta";
       totalCount ← get meta "totalCount";
       Ret (transactions, totalCount));
  result ← lift (mapO (add_utilities address) transactions);
  Ret (obj [("transactions", VArr result); ("totalCount", totalCount)]).

End Transactions.

Definition fetchWallet (this : t) (address : string) : prog value :=
  walletData ←
    (if is_number 2 (__version this) then
       response ← perform (Request (client this) "wallets" "get" [VStr address]);
       data ← get response "data";
       get data "data"
     else
       response ← perform (Request (client this) "accounts" "get" [VStr address]);
       data ← get response "data";
       success ← get data "success";
       if truthy success then
         account ← get data "account";
         username ← get account "username";
         walletData ← set account "isDelegate" (VBool (is_not_null username));
         walletData ← del walletData "unconfirmedBalance";
         walletData ← del walletData "unconfirmedSignature";
         walletData ← del walletData "secondSignature";
         walletData ← del walletData "multisignatures";
         del walletData "u_multisignatures"
       else Ret VNull);
  if truthy walletData then
    balance ← get walletData "balance";
    parsed ← lift (parseInt balance);
    set walletData "balance" (VNum parsed)
  else Ret walletData.

Record build_args := {
  arg_votes : value;
  arg_username : value;
  arg_amount : value;
  arg_recipientId : value;
  arg_vendorField : value;
  arg_passphrase : value;
  arg_secondPassphrase : value;
  arg_wif : value
}.

Definition buildVote (a : build_args) : TransactionBuilder.t :=
  let vote := votesAsset (arg_votes a) vote in
  let vote :=
    if truthy (arg_passphrase a) then sign (arg_passphrase a) vote
    else if truthy (arg_wif a) then signWithWif (arg_wif a) vote
    else vote in
  let vote :=
    if truthy (arg_secondPassphrase a)
    then secondSign (arg_secondPassphrase a) vote
    else vote in
  getStruct vote.

Definition buildDelegateRegistration (a : build_args) : TransactionBuilder.t :=
  let delegateRegistration :=
    usernameAsset (arg_username a) delegateRegistration in
  let delegateRegistration :=
    if truthy (arg_passphrase a)
    then sign (arg_passphrase a) delegateRegistration
    else if truthy (arg_wif a)
    then signWithWif (arg_wif a) delegateRegistration
    else delegateRegistration in
  let delegateRegistration :=
    if truthy (arg_secondPassphrase a)
    then secondSign (arg_secondPassphrase a) delegateRegistration
    else delegateRegistration in
  getStruct delegateRegistration.

Definition buildTransfer (a : build_args) : TransactionBuilder.t :=
  let transfer :=
    vendorField (arg_vendorField a)
      (recipientId (arg_recipientId a) (amount (arg_amount a) transfer)) in
  let transfer :=
    if truthy (arg_passphrase a) then sign (arg_passphrase a) transfer
    else if truthy (arg_wif a) then signWithWif (arg_wif a) transfer
    else transfer in
  let transfer :=
    if truthy (arg_secondPassphrase a)
    then secondSign (arg_secondPassphrase a) transfer
    else transfer in
  getStruct transfer.

Definition buildSecondSignatureRegistration (a : build_args)
  : TransactionBuilder.t :=
  let registration := signatureAsset (arg_secondPassphrase a) secondSignature in
  let registration :=
    if truthy (arg_passphrase a) then sign (arg_passphrase a) registration
    else if truthy (arg_wif a) then signWithWif (arg_wif a) registration
    else registration in
  getStruct registration.

(** [s.match(/^2\./)], as a truth value. *)
Definition matches_v2 (v : value) : outcome bool :=
  match v with
  | VStr s => Ok (starts_with "2." s)
  | _ => Err TypeError
  end.

(** Run [p]; an exception leaves the object as it is in [this] (the
    assignments made so far are kept). *)
Definition attempt (this : t) (p : prog (t * outcome value))
  : prog (t * outcome value) :=
  catch p (λ e, Ret (this, Err e)).

(** The callback [__watchProfile] gives to [store.watch]: the object
    after the call, and how the call completed. *)
Definition profile_changed (this : t) (profile : value)
  : prog (t * outcome value) :=
  if negb (truthy profile) then Ret (this, Ok VUndef)
  else
    attempt this (
      networkId ← get profile "networkId";
      network ← perform (Getter "network/byId" [networkId]);
      server ← get network "server";
      apiVersion ← get network "apiVersion";
      currentPeer ← perform (Getter "peer/current" []);
      if truthy currentPeer && has_keys currentPeer then
        ip ← get currentPeer "ip";
        ip ← lift (to_string ip);
        port ← get currentPeer "port";
        port ← lift (to_string port);
        let this := set_host (VStr ("http://" +:+ ip +:+ ":" +:+ port)) this in
        attempt this (
          version ← get currentPeer "version";
          is_v2 ← lift (matches_v2 version);
          let this :=
            set_version (VNum (Int (if is_v2 : bool then 2 else 1))) this in
          _ ← spawn (Emit "client:changed");
          Ret (this, Ok VUndef))
      else
        let this := set_version apiVersion (set_host server this) in
        _ ← spawn (Emit "client:changed");
        Ret (this, Ok VUndef)).

(** [store.watch(getter, callback, { immediate: true })] calls the callback
    at once with the value the getter has. *)
Definition __watchProfile (this : t) : prog (t * outcome value) :=
  attempt this (
    profile ← perform (Getter "session/profile" []);
    profile_changed this profile).

Definition constructor (watchProfile : bool) : prog (t * outcome value) :=
  let this :=
    {| __host := VNull;
       __version := VNull;
       client := ApiClient.new (VStr "http://") |} in
  if watchProfile then __watchProfile this
  else Ret (this, Ok VUndef).

(** [static async fetchNetworkConfig (server, apiVersion, timeout)] *)
Definition fetchNetworkConfig (server apiVersion timeout : value) : prog value :=
  let client := ApiClient.new_versioned server apiVersion in
  let client :=
    if truthy timeout then ApiClient.set_timeout timeout client else client in
  if is_number 1 apiVersion then
    response ← perform (Request client "loader" "status" []);
    data ← get response "data";
    get data "network"
  else
    response ← perform (Request client "node" "configuration" []);
    data ← get response "data";
    get data "data".

Definition fetchPeerStatus (this : t) : prog value :=
  if is_number 1 (__version this) then
    response ← perform (Request (client this) "loader" "configuration" []);
    get response "data"
  else
    response ← perform (Request (client this) "node" "syncing" []);
    data ← get response "data";
    get data "data".

Definition fetchWalletVote (this : t) (address : string) : prog value :=
  if is_number 2 (version this) then
    response ← perform (Request (client this) "wallets" "votes" [VStr address]);
    data ← get response "data";
    response ← get data "data";
    length ← get response "length";
    if truthy length then
      first ← get response "0";
      asset ← get first "asset";
      votes ← get asset "votes";
      vote ← get votes "0";
      lift (substring_from_1 vote)
    else Ret VNull
  else
    response ← perform (Request (client this) "accounts" "delegates" [VStr address]);
    data ← get response "data";
    success ← get data "success";
    if truthy success then
      delegates ← get data "delegates";
      length ← get delegates "length";
      if truthy length then
        delegates ← get data "delegates";
        first ← get delegates "0";
        get first "publicKey"
      else Ret VNull
    else Ret VNull.

(** [__parseCurrentPeer ()] *)
Definition __parseCurrentPeer (this : t) : outcome value :=
  host ← to_string (ApiClient.http_host (client this));
  match HostPattern.exec host with
  | None => Err TypeError
  | Some (scheme, ip, matches3) =>
      let port :=
        if String.eqb scheme "https://" then VNum (Int 443) else VNum (Int 80) in
      let port := if truthy (VStr matches3) then VStr matches3 else port in
      Ok (obj [("ip", VStr ip); ("port", port)])
  end.

(** [fetchPeers (network, peers = [])] *)
Definition fetchPeers (this : t) (network peers : value) : prog value :=
  let peers := match peers with VUndef => VArr [] | _ => peers end in
  peers ←
    (if truthy network then Ret VNull
     else
       length ← get peers "length";
       if negb (truthy network) && negb (truthy length) then
         peer ← lift (__parseCurrentPeer this);
         Ret (VArr [peer])
       else Ret peers);
  perform (FindPeers network (ApiClient.version (client this)) peers).

Definition broadcastTransaction (this : t) (transactions : value) : prog value :=
  perform (Request (client this) "transactions" "create"
             [obj [("transactions", castArray transactions)]]).

End ClientService.

(** ** The peer-system actions ([src/renderer/store/modules/peer/system.js]) *)

Module PeerSystem.

(** ['system/clear'] *)
Definition system_clear : prog value :=
  _ ← spawn (Dispatch "peers/clear" []);
  _ ← spawn (Dispatch "current/clear" []);
  _ ← perform (Dispatch "peers/connectToBest"
                 [obj [("skipIfCustom", VBool false)]]);
  Ret VUndef.

(** ['update']; [dispatch('system/clear')] runs the action above. *)
Definition update : prog value :=
  peer ← perform (Getter "current/current" []);
  if negb (truthy peer) then
    _ ← system_clear;
    _ ← perform (Dispatch "peers/refresh" []);
    Ret VUndef
  else
    catch (
      peer ← perform (Dispatch "peer/update" [peer]);
      _ ← perform (Dispatch "peer/current/set"
                     [obj [("peer", peer)]; obj [("root", VBool true)]]);
      Ret VUndef)
    (λ error,
      _ ← spawn (LogError error);
      _ ← system_clear;
      _ ← perform (Dispatch "peers/refresh" []);
      Ret VUndef).

End PeerSystem.


(** * The vocabulary of the statements *)

Section Vocabulary.

Import TransactionBuilder ClientService.

(** ** Programs and environments *)

(** A program that performs no effect. *)
Definition effect_free {A} (p : prog A) : Prop := ∃ o, p = lift o.

(** The client before any binding, as the constructor leaves it. *)
Definition fresh : ClientService.t :=
  {| __host := VNull;
     __version := VNull;
     client := ApiClient.new (VStr "http://") |}.

Definition v1_client : ClientService.t :=
  set_version (VNum (Int 1)) (set_host (VStr "http://1.2.3.4:4001") fresh).

Definition v2_client : ClientService.t :=
  set_version (VNum (Int 2)) (set_host (VStr "http://1.2.3.4:4003") fresh).

(** A date library for the examples: the epoch of the main network, in
    milliseconds, plus the seconds of the transaction. *)
Definition sample_epoch_date (epoch raw : value) : outcome value :=
  Ok (VDate (Num.add (Int 1490101200000) (Num.mul (to_number raw) (Int 1000)))).

Definition sample_human_date (human : value) : outcome value :=
  Ok (VDate (Int 1490101200000)).

(** ** Requests *)

Definition session_network : effect := Getter "session/network" [].

Definition v1_request (this : ClientService.t) (address : string)
    (orderBy offset limit : value) : effect :=
  Request (client this) "transactions" "all"
    [obj [("recipientId", VStr address); ("senderId", VStr address);
          ("orderBy", orderBy); ("offset", offset); ("limit", limit)]].

Definition v2_request (this : ClientService.t) (address : string)
    (limit page : value) : effect :=
  Request (client this) "wallets" "transactions"
    [VStr address; obj [("limit", limit); ("page", page)]].

Definition wallets_get (this : ClientService.t) (address : string) : effect :=
  Request (client this) "wallets" "get" [VStr address].

Definition accounts_get (this : ClientService.t) (address : string) : effect :=
  Request (client this) "accounts" "get" [VStr address].

Definition network_by_id (networkId : value) : effect :=
  Getter "network/byId" [networkId].

Definition peer_current : effect := Getter "peer/current" [].

Definition client_changed : effect := Emit "client:changed".

Definition current_peer : effect := Getter "current/current" [].

Definition refresh : effect := Dispatch "peers/refresh" [].

(** The three requests of ['system/clear']. *)
Definition recovery : list effect :=
  [Dispatch "peers/clear" [];
   Dispatch "current/clear" [];
   Dispatch "peers/connectToBest" [obj [("skipIfCustom", VBool false)]]].

(** ** Building transactions *)

(** What the specification says of the signing steps of a draft [d] built
    from the arguments [a]. *)
Definition primary_as_specified (a : build_args) (d : TransactionBuilder.t)
  : Prop :=
  (truthy (arg_passphrase a) = true →
     List.filter is_primary (steps d) = [Sign (arg_passphrase a)]) ∧
  (truthy (arg_passphrase a) = false → truthy (arg_wif a) = true →
     List.filter is_primary (steps d) = [SignWithWif (arg_wif a)]) ∧
  (truthy (arg_passphrase a) = false → truthy (arg_wif a) = false →
     List.filter is_primary (steps d) = []).

Definition second_as_specified (a : build_args) (d : TransactionBuilder.t)
  : Prop :=
  List.filter is_second (steps d) =
  if truthy (arg_secondPassphrase a) then [SecondSign (arg_secondPassphrase a)]
  else [].

Definition transfer_example : build_args :=
  {| arg_votes := VUndef;
     arg_username := VUndef;
     arg_amount := VNum (Int 100);
     arg_recipientId := VStr "R1";
     arg_vendorField := VStr "memo";
     arg_passphrase := VStr "p";
     arg_secondPassphrase := VUndef;
     arg_wif := VUndef |}.

(** ** Peer-system recovery *)

(** The environment never fails the reconnection: the getter of the
    current peer, ['peers/connectToBest'] and ['peers/refresh']. *)
Definition reconnects (w : env) : Prop :=
  (∀ tr, ∃ v, w tr current_peer = Ok v) ∧
  (∀ tr args, ∃ v, w tr (Dispatch "peers/connectToBest" args) = Ok v) ∧
  (∀ tr, ∃ v, w tr refresh = Ok v).

(** An environment with no current peer in which reconnecting fails. *)
Definition no_peer_no_connection : env := λ _ eff,
  match eff with
  | Dispatch "peers/connectToBest" _ => Err (Rejected (VStr "no peer"))
  | Getter _ _ => Ok VNull
  | _ => Ok VUndef
  end.

(** An environment whose current peer fails to refresh. *)
Definition stale_peer : env := λ _ eff,
  match eff with
  | Getter _ _ => Ok (obj [("ip", VStr "1.2.3.4")])
  | Dispatch "peer/update" _ => Err (Rejected (VStr "timeout"))
  | _ => Ok VUndef
  end.

(** ** Profiles and peers *)

Definition no_profile : env := λ _ _, Ok VNull.

Definition mainnet_profile : value := obj [("networkId", VStr "ark.mainnet")].

Definition mainnet : value :=
  obj [("server", VStr "https://explorer.ark.io:8443");
       ("apiVersion", VNum (Int 1))].

Definition peer_v2 : value :=
  obj [("ip", VStr "1.2.3.4"); ("port", VNum (Int 4003));
       ("version", VStr "2.1.0")].

Definition store_with (peer : value) : env := λ _ eff,
  match eff with
  | Getter "network/byId" _ => Ok mainnet
  | Getter "peer/current" _ => Ok peer
  | _ => Ok VUndef
  end.

(** [this'] is [this] bound to the host [h] and the version [v]: both read
    back from it, the API client underneath is connected to them, and
    nothing else of it has changed. *)
Definition bound_to (h v : value) (this this' : ClientService.t) : Prop :=
  host this' = h ∧
  version this' = v ∧
  ApiClient.http_host (client this') = h ∧
  ApiClient.version (client this') = Some v ∧
  ApiClient.http_timeout (client this') = ApiClient.http_timeout (client this).

(** [this'] is [this] with the host [h] and the version it had. *)
Definition host_only (h : value) (this this' : ClientService.t) : Prop :=
  host this' = h ∧
  version this' = version this ∧
  ApiClient.http_host (client this') = h ∧
  ApiClient.version (client this') = ApiClient.version (client this) ∧
  ApiClient.http_timeout (client this') = ApiClient.http_timeout (client this).

(** ** Nodes *)

Definition mainnet_constants : value :=
  obj [("constants", obj [("epoch", VStr "2017-03-21T13:00:00.000Z")])].

(** A node that fails every request softly, and has no transactions. *)
Definition empty_node : env := λ _ eff,
  match eff with
  | Getter _ _ => Ok mainnet_constants
  | Request _ "transactions" _ _ =>
      Ok (obj [("data", obj [("success", VBool true);
                             ("transactions", VArr []);
                             ("count", VStr "0")])])
  | _ => Ok (obj [("data", obj [("success", VBool false)])])
  end.

(** A v1 node with one transfer from [AddR] to [AddS]. *)
Definition one_transfer_node : env := λ _ eff,
  match eff with
  | Getter _ _ => Ok mainnet_constants
  | _ =>
      Ok (obj [("data", obj [("success", VBool true);
                             ("count", VStr "1");
                             ("transactions", VArr [
                                obj [("senderId", VStr "AddR");
                                     ("recipientId", VStr "AddS");
                                     ("amount", VNum (Int 100));
                                     ("fee", VNum (Int 10));
                                     ("timestamp", VNum (Int 5))]])])])
  end.

Definition sample_page : value :=
  match (run one_transfer_node []
           (fetchTransactions sample_epoch_date sample_human_date
              v1_client "AddR" None)).2 with
  | Ok page => page
  | Err _ => VUndef
  end.

(** What the enrichment pass leaves in a transaction. *)
Definition enriched (address : string) (tx : value) : Prop :=
  ∃ m total, tx = VObj m ∧
    m !! "isSender" = Some (VBool (is_string address (prop m "sender"))) ∧
    m !! "isReceiver" = Some (VBool (is_string address (prop m "recipient"))) ∧
    js_add (prop m "amount") (prop m "fee") = Ok total ∧
    m !! "totalAmount" = Some total.

(** ** Wallets *)

(** The account of the v1 example in the documentation of [fetchWallet]. *)
Definition documented_account : value :=
  obj [("address", VStr "ANQYF8y8PBmg67hSGCA7e67d84sgm8zH3k");
       ("unconfirmedBalance", VStr "243884095406");
       ("balance", VStr "243884095406");
       ("publicKey", VNull);
       ("unconfirmedSignature", VNum (Int 0));
       ("secondSignature", VNum (Int 0));
       ("secondPublicKey", VNull);
       ("multisignatures", VArr []);
       ("u_multisignatures", VArr [])].

Definition documented_node : env := λ _ _,
  Ok (obj [("data", obj [("success", VBool true);
                         ("account", documented_account)])]).

(** The account of the end-to-end scenario of the specification. *)
Definition bob_account : gmap string value :=
  list_to_map [("address", VStr "ADDR1"); ("balance", VStr "100");
               ("username", VStr "bob"); ("unconfirmedBalance", VStr "5");
               ("multisignatures", VArr [])].

Definition bob_response : value :=
  obj [("data", obj [("success", VBool true); ("account", VObj bob_account)])].

Definition bob_node : env := λ _ _, Ok bob_response.



(** The legacy fields [fetchWallet] deletes. *)
Definition without_legacy (account : gmap string value) : gmap string value :=
  delete "u_multisignatures"
    (delete "multisignatures"
       (delete "secondSignature"
          (delete "unconfirmedSignature"
             (delete "unconfirmedBalance" account)))).

(** ** Numerals *)




(** ** What [parseInt] reads in a string

    Optional white space, an optional sign, an optional [0x] or [0X], then
    the longest run of digits of the radix (ten, or sixteen after the
    prefix); the run is not empty, and what follows it is ignored.  The
    result is the value of the run, rounded to the nearest double. *)










(** ** Normalised shapes *)

(** The legacy fields of a v1 account. *)
Definition legacy_keys : list string :=
  ["unconfirmedBalance"; "unconfirmedSignature"; "secondSignature";
   "multisignatures"; "u_multisignatures"].

(** Every request to the node is rejected with [e]. *)
Definition node_down (e : exn) (w : env) : Prop :=
  ∀ tr client resource method args,
    w tr (Request client resource method args) = Err e.

(** The node answers every request with [response]. *)
Definition node_answers (response : value) (w : env) : Prop :=
  ∀ tr client resource method args,
    w tr (Request client resource method args) = Ok response.

(** A v1 node that fails every request softly. *)
Definition soft_failure : value := obj [("data", obj [("success", VBool false)])].

Definition soft_failing_node : env := λ _ eff,
  match eff with
  | Getter _ _ => Ok mainnet_constants
  | _ => Ok soft_failure
  end.

Definition unreachable : env := λ _ eff,
  match eff with
  | Request _ _ _ _ => Err (Rejected (VStr "ECONNREFUSED"))
  | _ => Ok mainnet_constants
  end.

(** The keys [fetchTransactions] writes or deletes under version 1, and
    under version 2. *)
Definition v1_keys : list string :=
  ["timestamp"; "sender"; "recipient"; "senderId"; "recipientId";
   "isSender"; "isReceiver"; "totalAmount"].

Definition v2_keys : list string :=
  ["timestamp"; "isSender"; "isReceiver"; "totalAmount"].

(** A transaction of a v1 payload and the transaction returned for it. *)
Definition renamed (payload result : value) : Prop :=
  ∃ pm rm, payload = VObj pm ∧ result = VObj rm ∧
    prop rm "sender" = prop pm "senderId" ∧
    prop rm "recipient" = prop pm "recipientId" ∧
    rm !! "senderId" = None ∧ rm !! "recipientId" = None ∧
    ∀ k, k ∉ v1_keys → rm !! k = pm !! k.

(** A transaction of a v2 payload and the transaction returned for it. *)
Definition kept (payload result : value) : Prop :=
  ∃ pm rm, payload = VObj pm ∧ result = VObj rm ∧
    ∀ k, k ∉ v2_keys → rm !! k = pm !! k.

(** A delegate of a v1 payload and the delegate returned for it. *)
Definition remapped (payload result : value) : Prop :=
  ∃ pm rm, payload = VObj pm ∧ result = VObj rm ∧
    rm !! "rank" = Some (prop pm "rate") ∧
    rm !! "blocks" = Some (obj [("produced", prop pm "producedblocks");
                               ("missed", prop pm "missedblocks")]) ∧
    rm !! "production" = Some (obj [("approval", prop pm "approval");
                                   ("productivity", prop pm "productivity")]) ∧
    ∀ k, k ≠ "rank" → k ≠ "blocks" → k ≠ "production" → rm !! k = pm !! k.

(** A v2 node with one transfer from [AddS] to [AddR]. *)
Definition v2_transfer : value :=
  obj [("sender", VStr "AddS"); ("recipient", VStr "AddR");
       ("amount", VNum (Int 100)); ("fee", VNum (Int 10));
       ("timestamp", obj [("human", VStr "2018-10-01T10:00:00.000Z")])].

Definition v2_page : gmap string value :=
  list_to_map [("data", VArr [v2_transfer]);
               ("meta", obj [("totalCount", VNum (Int 1))])].

Definition v2_response : value := obj [("data", VObj v2_page)].

Definition v2_node : env := λ _ _, Ok v2_response.

Definition sample_v2_page : value :=
  match (run v2_node []
           (fetchTransactions sample_epoch_date sample_human_date
              v2_client "AddR" None)).2 with
  | Ok page => page
  | Err _ => VUndef
  end.

(** A v1 node with one delegate. *)
Definition genesis_1 : value :=
  obj [("username", VStr "genesis_1"); ("rate", VNum (Int 1));
       ("producedblocks", VNum (Int 120)); ("missedblocks", VNum (Int 3));
       ("approval", VNum (Int 2)); ("productivity", VNum (Int 97));
       ("forged", obj [("total", VStr "24600000000")])].

Definition delegates_page : gmap string value :=
  list_to_map [("success", VBool true); ("delegates", VArr [genesis_1])].

Definition delegates_response : value := obj [("data", VObj delegates_page)].

Definition delegates_node : env := λ _ _, Ok delegates_response.

(** ** Signing order *)

Definition primary_steps (a : build_args) : list step :=
  if truthy (arg_passphrase a) then [Sign (arg_passphrase a)]
  else if truthy (arg_wif a) then [SignWithWif (arg_wif a)]
  else [].

Definition second_steps (a : build_args) : list step :=
  if truthy (arg_secondPassphrase a) then [SecondSign (arg_secondPassphrase a)]
  else [].

(** ** Peers and hosts *)

Definition peer_without_version : value :=
  obj [("ip", VStr "1.2.3.4"); ("port", VNum (Int 4003))].

(** The strings of host characters, and of digits. *)
Definition host_chars (s : string) : Prop :=
  Forall (λ c, HostPattern.is_host_char c = true)
         (Stdlib.Strings.String.list_ascii_of_string s).

Definition port_chars (s : string) : Prop :=
  Forall (λ c, HostPattern.is_port_char c = true)
         (Stdlib.Strings.String.list_ascii_of_string s).

Definition find_peers (this : ClientService.t) (network peers : value)
  : effect :=
  FindPeers network (ApiClient.version (client this)) peers.

(** No list of peers, or an empty one. *)
Definition is_empty_list (peers : value) : Prop :=
  peers = VUndef ∨ peers = VArr [].

Definition is_array (v : value) : bool :=
  match v with
  | VArr _ => true
  | _ => false
  end.

(** ** Votes, broadcasts, probes *)

Definition wallets_votes (this : ClientService.t) (address : string) : effect :=
  Request (client this) "wallets" "votes" [VStr address].

Definition accounts_delegates (this : ClientService.t) (address : string)
  : effect :=
  Request (client this) "accounts" "delegates" [VStr address].

Definition voted_response : value :=
  obj [("data", obj [("data", VArr [
    obj [("asset", obj [("votes", VArr [VStr "+02abc"])])]])])].

Definition voted_node : env := λ _ _, Ok voted_response.

Definition create_request (this : ClientService.t) (transactions : value)
  : effect :=
  Request (client this) "transactions" "create"
    [obj [("transactions", transactions)]].

(** The client [fetchNetworkConfig] makes for itself. *)
Definition probe_client (server apiVersion timeout : value) : ApiClient.t :=
  {| ApiClient.http_host := server;
     ApiClient.http_timeout := if truthy timeout then Some timeout else None;
     ApiClient.version := Some apiVersion |}.

Definition config_response : value :=
  obj [("data", obj [("network", obj [("nethash", VStr "6e84d08bd299ed97")]);
                     ("data", obj [("nethash", VStr "2a44f340d76ffc3d")])])].

Definition config_node : env := λ _ _, Ok config_response.

(** ** Construction *)

Definition session_profile : effect := Getter "session/profile" [].

(** A store with an active profile of the main network and a peer. *)
Definition store_of (profile peer : value) : env := λ _ eff,
  match eff with
  | Getter "session/profile" _ => Ok profile
  | Getter "network/byId" _ => Ok mainnet
  | Getter "peer/current" _ => Ok peer
  | _ => Ok VUndef
  end.

Definition nullish (v : value) : Prop := v = VUndef ∨ v = VNull.

End Vocabulary.

(** * Properties *)

(** ** Running programs *)

Lemma bind_Ok {A B} (o : outcome A) (f : A → outcome B) b :
  o ≫= f = Ok b → ∃ a, o = Ok a ∧ f a = Ok b.
Proof. destruct o; [eauto | done]. Qed.

(** [mapO] succeeds exactly when the callback succeeds on every element. *)
Lemma mapO_Ok {A B} (f : A → outcome B) l l' :
  mapO f l = Ok l' → Forall2 (λ x y, f x = Ok y) l l'.
Proof.
  revert l'. induction l as [|x l IH]; intros l' H; simpl in H.
  - injection H as <-. constructor.
  - apply bind_Ok in H as (y & Hy & H).
    apply bind_Ok in H as (ys & Hys & H).
    injection H as <-. constructor; auto.
Qed.

Lemma run_bind {A B} w tr (p : prog A) (f : A → prog B) :
  run w tr (p ≫= f) =
  match run w tr p with
  | (tr', Ok a) => run w tr' (f a)
  | (tr', Err e) => (tr', Err e)
  end.
Proof.
  revert tr. induction p as [a|e|eff k IH]; intros tr; simpl; [done..|].
  apply IH.
Qed.

Lemma run_lift {A} w tr (o : outcome A) : run w tr (lift o) = (tr, o).
Proof. by destruct o. Qed.

Lemma run_lift_bind {A B} w tr (o : outcome A) (f : A → prog B) :
  run w tr (lift o ≫= f) =
  match o with
  | Ok a => run w tr (f a)
  | Err e => (tr, Err e)
  end.
Proof. by destruct o. Qed.

Lemma run_perform_bind {B} w tr eff (f : value → prog B) :
  run w tr (perform eff ≫= f) =
  match w tr eff with
  | Ok a => run w (tr ++ [eff]) (f a)
  | Err e => (tr ++ [eff], Err e)
  end.
Proof. unfold perform. simpl. by destruct (w tr eff). Qed.

Lemma run_spawn_bind {B} w tr eff (f : value → prog B) :
  run w tr (spawn eff ≫= f) = run w (tr ++ [eff]) (f VUndef).
Proof. done. Qed.

(** A successful run of [p ≫= f] is a successful run of [p] followed by
    one of [f]. *)
Lemma run_bind_Ok {A B} w tr (p : prog A) (f : A → prog B) tr' b :
  run w tr (p ≫= f) = (tr', Ok b) →
  ∃ tr1 a, run w tr p = (tr1, Ok a) ∧ run w tr1 (f a) = (tr', Ok b).
Proof.
  rewrite run_bind. destruct (run w tr p) as [tr1 [a|e]]; [eauto | done].
Qed.

Lemma run_catch {A} w tr (p : prog A) h :
  run w tr (catch p h) =
  match run w tr p with
  | (tr', Ok a) => (tr', Ok a)
  | (tr', Err e) => run w tr' (h e)
  end.
Proof.
  revert tr. induction p as [a|e|eff k IH]; intros tr; simpl; [done..|].
  apply IH.
Qed.

Lemma run_lift_Ok {A} w tr (o : outcome A) tr' a :
  run w tr (lift o) = (tr', Ok a) → tr' = tr ∧ o = Ok a.
Proof. rewrite run_lift. by intros [= -> ->]. Qed.

Lemma effect_free_lift {A} (o : outcome A) : effect_free (lift o).
Proof. by exists o. Qed.

Lemma effect_free_Ret {A} (a : A) : effect_free (Ret a).
Proof. by exists (Ok a). Qed.

Lemma effect_free_bind {A B} (p : prog A) (f : A → prog B) :
  effect_free p → (∀ a, effect_free (f a)) → effect_free (p ≫= f).
Proof.
  intros [[a|e] ->] Hf; [apply Hf | by exists (Err e)].
Qed.

Lemma effect_free_run {A} w tr (p : prog A) :
  effect_free p → (run w tr p).1 = tr.
Proof. intros [o ->]. by rewrite run_lift. Qed.

Lemma trace_bind_free {A B} w tr (p : prog A) (f : A → prog B) :
  (∀ a, effect_free (f a)) → (run w tr (p ≫= f)).1 = (run w tr p).1.
Proof.
  intros Hf. rewrite run_bind. destruct (run w tr p) as [tr' [a|e]]; [|done].
  by apply effect_free_run.
Qed.

Ltac effect_free :=
  repeat first
    [ apply effect_free_lift
    | apply effect_free_Ret
    | apply effect_free_bind; [|intros ?]
    | intro
    | match goal with
      | |- effect_free (if ?b then _ else _) => destruct b
      | |- effect_free (match ?x with (_, _) => _ end) => destruct x
      end ].

Lemma set_prop_Ok v k x v' :
  set_prop v k x = Ok v' → ∃ m, v = VObj m ∧ v' = VObj (<[k := x]> m).
Proof. destruct v; try done. intros [= <-]. eauto. Qed.

(** ** Numerals, rounding, [parseInt] *)










(** ** Rounding *)



Lemma of_Z_opp z : Num.is_double z = true → Num.of_Z (- z) = Int (- z).
Proof.
  unfold Num.is_double, Num.of_Z. rewrite Z.abs_opp, Z.sgn_opp.
  destruct (2 ^ 1024 <=? Num.round_mag (Z.abs z)); [done|].
  intros H%Z.eqb_eq. by rewrite Z.mul_opp_l, H.
Qed.




(** ** [Number::toString] and [parseInt] *)












(** ** Where rounding overflows *)



(** ** What [parseInt] reads in a string *)

















(** ** Building transactions *)

Section Build.

Import TransactionBuilder ClientService.

Ltac build_cases a :=
  destruct (truthy (arg_passphrase a)), (truthy (arg_wif a)),
    (truthy (arg_secondPassphrase a)).

(** C9: every build operation applies the passphrase signature when a
    passphrase is supplied (a truthy argument), else the WIF signature when
    a WIF is supplied, and then no other primary signature; with neither
    supplied the draft is left unsigned.  [buildVote],
    [buildDelegateRegistration] and [buildTransfer] apply the second
    signature exactly when a second passphrase is supplied;
    [buildSecondSignatureRegistration] never does. *)
Theorem build_signing_steps (a : build_args) :
  (primary_as_specified a (buildVote a) ∧
   primary_as_specified a (buildDelegateRegistration a) ∧
   primary_as_specified a (buildTransfer a) ∧
   primary_as_specified a (buildSecondSignatureRegistration a)) ∧
  (second_as_specified a (buildVote a) ∧
   second_as_specified a (buildDelegateRegistration a) ∧
   second_as_specified a (buildTransfer a)) ∧
  List.filter is_second (steps (buildSecondSignatureRegistration a)) = [].
Proof.
  unfold primary_as_specified, second_as_specified, buildVote,
    buildDelegateRegistration, buildTransfer, buildSecondSignatureRegistration.
  build_cases a; simpl; intuition congruence.
Qed.

Lemma build_signing_steps_witness :
  List.filter is_primary (steps (buildTransfer transfer_example))
    = [Sign (VStr "p")] ∧
  List.filter is_second (steps (buildTransfer transfer_example)) = [].
Proof.
  destruct (build_signing_steps transfer_example)
    as ((_ & _ & (Hsign & _) & _) & (_ & _ & Hsecond) & _).
  split; [apply Hsign; reflexivity | exact Hsecond].
Defined.

End Build.

(** ** Peer-system recovery *)

Section Recovery.

Import PeerSystem.

(** The recovery sends the three requests of ['system/clear'], and fails
    only if reconnecting or refreshing the peers fails. *)
Lemma run_recover w tr :
  ∃ rest o, run w tr (_ ← system_clear; _ ← perform refresh; Ret VUndef)
    = (tr ++ recovery ++ rest, o) ∧
    ((∀ tr args, ∃ v, w tr (Dispatch "peers/connectToBest" args) = Ok v) →
     (∀ tr, ∃ v, w tr refresh = Ok v) → o = Ok VUndef).
Proof.
  unfold system_clear, recovery, refresh.
  rewrite run_bind, !run_spawn_bind, run_perform_bind.
  match goal with
  | |- context [w ?tr ?eff] => destruct (w tr eff) as [v|e] eqn:Hconnect
  end.
  - cbn [run mret prog_ret]. rewrite run_perform_bind.
    match goal with
    | |- context [w ?tr ?eff] => destruct (w tr eff) as [v'|e] eqn:Hrefresh
    end.
    + eexists [_], _.
      split; [cbn [run mret prog_ret]; by rewrite <- !app_assoc|done].
    + eexists [_], _. split; [by rewrite <- !app_assoc|].
      intros _ H.
      match type of Hrefresh with w ?tr _ = _ => destruct (H tr) end.
      congruence.
  - eexists [], _. split; [by rewrite <- !app_assoc|].
    intros H.
    match type of Hconnect with w ?tr (Dispatch _ ?args) = _ =>
      destruct (H tr args)
    end.
    congruence.
Qed.

Ltac recover_at w tr :=
  destruct (run_recover w tr) as (rest & o & -> & Ho).

(** C4, as the code has it: with no current peer, [update] clears the peer
    pool and the current peer and asks to connect to the best peer with
    [skipIfCustom: false]; an exception of the peer refresh (['peer/update']
    or ['peer/current/set']) is logged and followed by the same three
    requests; and when the reconnection itself does not fail, [update]
    completes without an exception. *)
Theorem update_recovers (w : env) :
  (∀ peer, w [] current_peer = Ok peer → truthy peer = false →
     ∃ rest, (run w [] update).1 = current_peer :: recovery ++ rest) ∧
  (∀ peer e, w [] current_peer = Ok peer → truthy peer = true →
     w [current_peer] (Dispatch "peer/update" [peer]) = Err e →
     ∃ rest, (run w [] update).1 =
       [current_peer; Dispatch "peer/update" [peer]; LogError e]
         ++ recovery ++ rest) ∧
  (∀ peer peer' e, w [] current_peer = Ok peer → truthy peer = true →
     w [current_peer] (Dispatch "peer/update" [peer]) = Ok peer' →
     let set_current :=
       Dispatch "peer/current/set"
         [obj [("peer", peer')]; obj [("root", VBool true)]] in
     w [current_peer; Dispatch "peer/update" [peer]] set_current = Err e →
     ∃ rest, (run w [] update).1 =
       [current_peer; Dispatch "peer/update" [peer]; set_current; LogError e]
         ++ recovery ++ rest) ∧
  (reconnects w → (run w [] update).2 = Ok VUndef).
Proof.
  unfold update, current_peer. fold refresh.
  split; [|split; [|split]].
  - intros peer Hpeer Hfalsy. rewrite run_perform_bind, Hpeer, Hfalsy.
    cbn [negb]. recover_at w ([] ++ [Getter "current/current" []]). eauto.
  - intros peer e Hpeer Htruthy Hupdate.
    rewrite run_perform_bind, Hpeer, Htruthy. cbn [negb].
    rewrite run_catch, run_perform_bind. cbn [app]. rewrite Hupdate.
    rewrite run_spawn_bind.
    match goal with |- context [run w ?tr _] => recover_at w tr end. eauto.
  - intros peer peer' e Hpeer Htruthy Hupdate Hset.
    rewrite run_perform_bind, Hpeer, Htruthy. cbn [negb].
    rewrite run_catch, run_perform_bind. cbn [app]. rewrite Hupdate.
    rewrite run_perform_bind. cbn [app]. rewrite Hset.
    rewrite run_spawn_bind.
    match goal with |- context [run w ?tr _] => recover_at w tr end. eauto.
  - intros (Hget & Hconnect & Hrefresh). unfold current_peer in Hget.
    rewrite run_perform_bind. destruct (Hget []) as [peer ->].
    destruct (truthy peer); cbn [negb].
    + rewrite run_catch, run_perform_bind.
      match goal with |- context [w ?tr ?eff] => destruct (w tr eff) end.
      * rewrite run_perform_bind.
        match goal with |- context [w ?tr ?eff] => destruct (w tr eff) end;
          [done|].
        rewrite run_spawn_bind.
        match goal with |- context [run w ?tr _] => recover_at w tr end.
        by apply Ho.
      * rewrite run_spawn_bind.
        match goal with |- context [run w ?tr _] => recover_at w tr end.
        by apply Ho.
    + match goal with |- context [run w ?tr _] => recover_at w tr end.
      by apply Ho.
Qed.

Lemma update_recovers_witness :
  (∃ rest, (run no_peer_no_connection [] update).1
           = current_peer :: recovery ++ rest) ∧
  (∃ rest, (run stale_peer [] update).1
           = [current_peer;
              Dispatch "peer/update" [obj [("ip", VStr "1.2.3.4")]];
              LogError (Rejected (VStr "timeout"))] ++ recovery ++ rest) ∧
  (run stale_peer [] update).2 = Ok VUndef.
Proof.
  split; [|split].
  - destruct (update_recovers no_peer_no_connection) as (H & _).
    apply (H VNull); reflexivity.
  - destruct (update_recovers stale_peer) as (_ & H & _).
    apply (H (obj [("ip", VStr "1.2.3.4")])); reflexivity.
  - destruct (update_recovers stale_peer) as (_ & _ & _ & H).
    apply H. repeat split; intros; eexists; reflexivity.
Defined.

(** C4 as stated fails: with no current peer and a reconnection that is
    rejected, the rejection escapes [update]. *)
Lemma update_exception_escapes :
  no_peer_no_connection [] current_peer = Ok VNull ∧
  run no_peer_no_connection [] update
    = (current_peer :: recovery, Err (Rejected (VStr "no peer"))).
Proof. split; reflexivity. Qed.

End Recovery.

(** ** The connection binding and the profile watcher *)

Section Binding.

Import ClientService.

(** C5, as the code has it: a client constructed without the profile
    watcher, or with it while no profile is active, has a null host and a
    null version; only the API client underneath is bound to the
    placeholder host.  Reading [host] or [version] returns the value last
    set, and setting one leaves the other as it is. *)
Theorem binding_reads_last_set :
  (∀ w, ∃ this, run w [] (constructor false) = ([], Ok (this, Ok VUndef)) ∧
     host this = VNull ∧ version this = VNull ∧
     ApiClient.http_host (client this) = VStr "http://") ∧
  (∀ w profile, w [] (Getter "session/profile" []) = Ok profile →
     truthy profile = false →
     ∃ tr this, run w [] (constructor true) = (tr, Ok (this, Ok VUndef)) ∧
       host this = VNull ∧ version this = VNull) ∧
  (∀ this h v,
     host (set_host h this) = h ∧
     version (set_version v this) = v ∧
     version (set_host h this) = version this ∧
     host (set_version v this) = host this ∧
     ApiClient.http_host (client (set_host h this)) = h ∧
     ApiClient.version (client (set_version v this)) = Some v).
Proof.
  split; [|split].
  - intros w. by eexists.
  - intros w profile Hprofile Hfalsy.
    unfold constructor, __watchProfile, attempt.
    rewrite run_catch, run_perform_bind, Hprofile.
    unfold profile_changed. rewrite Hfalsy. by eexists _, _.
  - done.
Qed.

Lemma binding_reads_last_set_witness :
  ∃ tr this, run no_profile [] (constructor true) = (tr, Ok (this, Ok VUndef)) ∧
    host this = VNull ∧ version this = VNull.
Proof.
  destruct binding_reads_last_set as (_ & H & _).
  apply (H no_profile VNull); reflexivity.
Defined.

(** C5 as stated fails: after construction the host and the version are
    null. *)
Lemma constructor_leaves_binding_null :
  ∃ this, run no_profile [] (constructor false) = ([], Ok (this, Ok VUndef)) ∧
    host this = VNull ∧ version this = VNull.
Proof. by eexists. Qed.

(** The run of the watcher's callback from any trace, with a peer selected
    and without. *)
Lemma run_profile_changed_peer (w : env) tr (this : t)
    (profile networkId network server apiVersion currentPeer : value)
    (ip port : string) (peer_version : value) :
  truthy profile = true →
  get_prop profile "networkId" = Ok networkId →
  w tr (network_by_id networkId) = Ok network →
  get_prop network "server" = Ok server →
  get_prop network "apiVersion" = Ok apiVersion →
  w (tr ++ [network_by_id networkId]) peer_current = Ok currentPeer →
  truthy currentPeer && has_keys currentPeer = true →
  get_prop currentPeer "ip" ≫= to_string = Ok ip →
  get_prop currentPeer "port" ≫= to_string = Ok port →
  get_prop currentPeer "version" = Ok peer_version →
  run w tr (profile_changed this profile) =
    let this' := set_host (VStr ("http://" +:+ ip +:+ ":" +:+ port)) this in
    match peer_version with
    | VStr version =>
        (tr ++ [network_by_id networkId; peer_current; client_changed],
         Ok (set_version
               (VNum (Int (if starts_with "2." version then 2 else 1))) this',
             Ok VUndef))
    | _ => (tr ++ [network_by_id networkId; peer_current],
            Ok (this', Err TypeError))
    end.
Proof.
  intros Hprofile HnetworkId Hnetwork Hserver HapiVersion Hpeer Hselected
    Hip Hport Hversion.
  unfold network_by_id, peer_current, client_changed in *.
  unfold profile_changed, attempt, get. rewrite Hprofile. cbn [negb].
  rewrite run_catch, run_lift_bind, HnetworkId, run_perform_bind, Hnetwork.
  rewrite run_lift_bind, Hserver, run_lift_bind, HapiVersion.
  rewrite run_perform_bind, Hpeer, Hselected.
  apply bind_Ok in Hip as (ipv & Hipv & Hip).
  apply bind_Ok in Hport as (portv & Hportv & Hport).
  rewrite run_lift_bind, Hipv, run_lift_bind, Hip.
  rewrite run_lift_bind, Hportv, run_lift_bind, Hport.
  rewrite run_catch, run_lift_bind, Hversion, run_lift_bind.
  destruct peer_version; cbn [matches_v2]; rewrite ?run_spawn_bind;
    cbn [run]; by rewrite <- ?app_assoc.
Qed.

Lemma run_profile_changed_server (w : env) tr (this : t)
    (profile networkId network server apiVersion currentPeer : value) :
  truthy profile = true →
  get_prop profile "networkId" = Ok networkId →
  w tr (network_by_id networkId) = Ok network →
  get_prop network "server" = Ok server →
  get_prop network "apiVersion" = Ok apiVersion →
  w (tr ++ [network_by_id networkId]) peer_current = Ok currentPeer →
  truthy currentPeer && has_keys currentPeer = false →
  run w tr (profile_changed this profile) =
    (tr ++ [network_by_id networkId; peer_current; client_changed],
     Ok (set_version apiVersion (set_host server this), Ok VUndef)).
Proof.
  intros Hprofile HnetworkId Hnetwork Hserver HapiVersion Hpeer Hselected.
  unfold network_by_id, peer_current, client_changed in *.
  unfold profile_changed, attempt, get. rewrite Hprofile. cbn [negb].
  rewrite run_catch, run_lift_bind, HnetworkId, run_perform_bind, Hnetwork.
  rewrite run_lift_bind, Hserver, run_lift_bind, HapiVersion.
  rewrite run_perform_bind, Hpeer, Hselected, run_spawn_bind.
  cbn [run]. by rewrite <- !app_assoc.
Qed.



End Binding.

(** ** Queries for transactions *)

Lemma mul_minus_one n :
  Num.wf n = true → Num.mul (Num.sub (Int 0) (Int 1)) n = Num.neg n.
Proof.
  destruct n as [|b|z]; [done|by destruct b|].
  intros Hz. change (Num.of_Z (-1 * z) = Int (- z)).
  replace (-1 * z) with (- z) by lia. by apply of_Z_opp.
Qed.

Section Queries.

Import ClientService.
Variable epoch_date : value → value → outcome value.
Variable human_date : value → outcome value.

(** What [fetchTransactions] asks of the store and of the node. *)
Lemma fetchTransactions_trace w this address q :
  (run w [] (fetchTransactions epoch_date human_date this address q)).1 =
  let q := default default_query q in
  let page := number_or_undefined (page q) in
  let limit := number_or_undefined (limit q) in
  let orderBy := string_or_undefined (orderBy q) in
  if is_number 1 (__version this) then
    match w [] session_network with
    | Ok _ => [session_network;
               v1_request this address orderBy (offset page limit) limit]
    | Err _ => [session_network]
    end
  else [v2_request this address limit page].
Proof.
  unfold fetchTransactions. rewrite trace_bind_free by effect_free.
  destruct (is_number 1 (__version this)).
  - rewrite run_perform_bind. fold session_network.
    destruct (w [] session_network); [|done].
    rewrite run_perform_bind. fold v1_request.
    match goal with |- context [w ?tr ?eff] => destruct (w tr eff) end; [|done].
    by rewrite effect_free_run by effect_free.
  - rewrite run_perform_bind.
    match goal with |- context [w ?tr ?eff] => destruct (w tr eff) end; [|done].
    by rewrite effect_free_run by effect_free.
Qed.

(** C7: under apiVersion 1, with a page and a limit supplied, the query
    sent carries the offset [(page - 1) * limit]; for page 0 that is
    [- limit], sent as it is. *)
Theorem v1_offset_of_page w this address p l ob network :
  is_number 1 (__version this) = true →
  w [] session_network = Ok network →
  let q := {| page := Some p; limit := Some l; orderBy := ob |} in
  let trace :=
    (run w [] (fetchTransactions epoch_date human_date this address (Some q))).1 in
  trace = [session_network;
           v1_request this address (string_or_undefined ob)
             (VNum (Num.mul (Num.sub p (Int 1)) l)) (VNum l)] ∧
  (p = Int 0 → Num.wf l = true →
   trace = [session_network;
            v1_request this address (string_or_undefined ob)
              (VNum (Num.neg l)) (VNum l)]).
Proof.
  intros Hv1 Hnetwork q trace. subst trace.
  rewrite fetchTransactions_trace, Hv1, Hnetwork. cbn.
  split; [done|]. intros -> Hl. unfold offset. cbn [to_number].
  by rewrite mul_minus_one.
Qed.

(** C10: a query object that is passed is used as it is: a field it does
    not have is sent as [undefined] (and then, under apiVersion 1, a
    missing limit makes the offset [NaN]); the defaults [page: 0],
    [limit: 50], [orderBy: 'timestamp:desc'] are used only when no query
    is passed. *)
Theorem query_defaults_only_when_omitted w this address network :
  w [] session_network = Ok network →
  let trace q :=
    (run w [] (fetchTransactions epoch_date human_date this address q)).1 in
  (is_number 1 (__version this) = true →
     (∀ q, trace (Some q) =
        [session_network;
         v1_request this address
           (string_or_undefined (orderBy q))
           (offset (number_or_undefined (page q)) (number_or_undefined (limit q)))
           (number_or_undefined (limit q))]) ∧
     (∀ p ob, trace (Some {| page := p; limit := None; orderBy := ob |}) =
        [session_network;
         v1_request this address (string_or_undefined ob) (VNum NaN) VUndef]) ∧
     trace None =
       [session_network;
        v1_request this address (VStr "timestamp:desc") (VNum (Int (-50)))
          (VNum (Int 50))]) ∧
  (is_number 1 (__version this) = false →
     (∀ q, trace (Some q) =
        [v2_request this address (number_or_undefined (limit q))
           (number_or_undefined (page q))]) ∧
     trace None = [v2_request this address (VNum (Int 50)) (VNum (Int 0))]).
Proof.
  intros Hnetwork trace. subst trace. cbn beta.
  split; intros Hversion.
  - split; [|split]; intros; rewrite fetchTransactions_trace, Hversion, Hnetwork;
      [done| |done].
    cbn. unfold offset. cbn [to_number].
    by destruct (Num.sub (to_number (number_or_undefined p)) (Int 1)).
  - split; intros; by rewrite fetchTransactions_trace, Hversion.
Qed.

Lemma add_utilities_enriched address tx tx' :
  add_utilities address tx = Ok tx' → enriched address tx'.
Proof.
  unfold add_utilities. intros H.
  apply bind_Ok in H as (sender & Hsender & H).
  apply bind_Ok in H as (tx1 & Htx1 & H).
  apply set_prop_Ok in Htx1 as (m & -> & ->).
  cbn [get_prop] in Hsender, H. injection Hsender as <-.
  apply bind_Ok in H as (recipient & [= <-] & H).
  apply bind_Ok in H as (tx2 & [= <-] & H).
  apply bind_Ok in H as (amount & [= <-] & H).
  apply bind_Ok in H as (fee & [= <-] & H).
  apply bind_Ok in H as (total & Htotal & [= <-]).
  eexists _, total. split; [done|].
  unfold prop in *. by simplify_map_eq.
Qed.

(** C2: whatever the bound version, every transaction [fetchTransactions]
    returns for an address has [isSender] and [isReceiver] set to whether
    its sender and its recipient are that address, and [totalAmount] to
    [amount + fee]. *)
Theorem transactions_enriched w this address q tr result :
  run w [] (fetchTransactions epoch_date human_date this address q)
    = (tr, Ok result) →
  ∃ txs totalCount,
    result = obj [("transactions", VArr txs); ("totalCount", totalCount)] ∧
    Forall (enriched address) txs.
Proof.
  unfold fetchTransactions. intros H.
  apply run_bind_Ok in H as (tr1 & [transactions totalCount] & _ & H).
  apply run_bind_Ok in H as (tr2 & txs & Htxs & H).
  apply run_lift_Ok in Htxs as [_ Htxs]. injection H as _ <-.
  exists txs, totalCount. split; [done|].
  apply mapO_Ok in Htxs.
  induction Htxs; constructor; eauto using add_utilities_enriched.
Qed.

End Queries.

Section QueryWitnesses.

Import ClientService.

Lemma v1_offset_of_page_witness :
  (run empty_node []
     (fetchTransactions sample_epoch_date sample_human_date v1_client "AddR"
        (Some {| page := Some (Int 0); limit := Some (Int 50);
                 orderBy := None |}))).1
  = [session_network;
     v1_request v1_client "AddR" VUndef (VNum (Int (-50))) (VNum (Int 50))].
Proof.
  refine (proj2 (v1_offset_of_page sample_epoch_date sample_human_date
                   empty_node v1_client "AddR" (Int 0) (Int 50)
                   None _ _ _) _ _); reflexivity.
Defined.

Lemma query_defaults_only_when_omitted_witness :
  (run empty_node []
     (fetchTransactions sample_epoch_date sample_human_date v1_client "AddR"
        (Some {| page := Some (Int 2); limit := None; orderBy := None |}))).1
  = [session_network; v1_request v1_client "AddR" VUndef (VNum NaN) VUndef] ∧
  (run empty_node []
     (fetchTransactions sample_epoch_date sample_human_date v2_client "AddR"
        (Some {| page := Some (Int 2); limit := None; orderBy := None |}))).1
  = [v2_request v2_client "AddR" VUndef (VNum (Int 2))].
Proof.
  split.
  - refine (proj1 (proj2 (proj1 (query_defaults_only_when_omitted
      sample_epoch_date sample_human_date empty_node
      v1_client "AddR" _ _) _)) (Some (Int 2)) None); reflexivity.
  - refine (proj1 (proj2 (query_defaults_only_when_omitted
      sample_epoch_date sample_human_date empty_node
      v2_client "AddR" _ _) _)
      {| page := Some (Int 2); limit := None; orderBy := None |}); reflexivity.
Defined.

Lemma transactions_enriched_witness :
  ∃ txs totalCount,
    sample_page = obj [("transactions", VArr txs); ("totalCount", totalCount)] ∧
    Forall (enriched "AddR") txs.
Proof.
  apply (transactions_enriched sample_epoch_date sample_human_date
           one_transfer_node v1_client "AddR" None
           (run one_transfer_node []
              (fetchTransactions sample_epoch_date sample_human_date
                 v1_client "AddR" None)).1).
  vm_compute. reflexivity.
Defined.

End QueryWitnesses.

(** ** Soft failures *)

Section SoftFailures.

Import ClientService.

(** C8: when the response to [fetchDelegates] has a falsy [success] and
    the bound version is not 2, the result is the empty list; when the
    delegate has no cached forged total and the response has a falsy (or
    no) [success], [fetchDelegateForged] returns 0.  Neither throws. *)
Theorem soft_failure_sentinels w this :
  (∀ response data,
     is_number 2 (__version this) = false →
     w [] (Request (client this) "delegates" "all" []) = Ok response →
     get_prop response "data" = Ok (VObj data) →
     truthy (prop data "success") = false →
     (run w [] (fetchDelegates this)).2 = Ok (VArr [])) ∧
  (∀ delegate response data,
     truthy (prop delegate "forged") = false →
     w [] (Request (client this) "delegates" "forged"
             [prop delegate "publicKey"]) = Ok response →
     get_prop response "data" = Ok (VObj data) →
     truthy (prop data "success") = false →
     (run w [] (fetchDelegateForged this (VObj delegate))).2 = Ok (VNum (Int 0))).
Proof.
  split.
  - intros response data Hversion Hresponse Hdata Hsuccess.
    unfold fetchDelegates, get.
    rewrite run_perform_bind, Hresponse, run_lift_bind, Hdata, Hversion.
    rewrite run_lift_bind. cbn [get_prop]. by rewrite Hsuccess.
  - intros delegate response data Hforged Hresponse Hdata Hsuccess.
    unfold fetchDelegateForged, get.
    rewrite run_lift_bind. cbn [get_prop]. rewrite Hforged.
    rewrite run_lift_bind, run_perform_bind, Hresponse.
    rewrite run_lift_bind, Hdata, run_lift_bind. cbn [get_prop].
    by rewrite Hsuccess.
Qed.

Lemma soft_failure_sentinels_witness :
  (run empty_node [] (fetchDelegates v1_client)).2 = Ok (VArr []) ∧
  (run empty_node []
     (fetchDelegateForged v1_client (obj [("publicKey", VStr "02abc")]))).2
  = Ok (VNum (Int 0)).
Proof.
  split.
  - refine (proj1 (soft_failure_sentinels empty_node v1_client)
      (obj [("data", obj [("success", VBool false)])])
      (list_to_map [("success", VBool false)]) _ _ _ _); reflexivity.
  - refine (proj2 (soft_failure_sentinels empty_node v1_client)
      (list_to_map [("publicKey", VStr "02abc")])
      (obj [("data", obj [("success", VBool false)])])
      (list_to_map [("success", VBool false)]) _ _ _ _); reflexivity.
Defined.

End SoftFailures.

(** ** Wallets *)

Section Wallets.

Import ClientService.


(** What [fetchWallet] returns for a v1 account. *)
Lemma fetchWallet_v1 w this address response data account n :
  is_number 2 (__version this) = false →
  w [] (accounts_get this address) = Ok response →
  get_prop response "data" = Ok (VObj data) →
  truthy (prop data "success") = true →
  prop data "account" = VObj account →
  parseInt (prop account "balance") = Ok n →
  run w [] (fetchWallet this address) =
    ([accounts_get this address],
     Ok (VObj (<["balance" := VNum n]>
                 (without_legacy
                    (<["isDelegate" :=
                         VBool (is_not_null (prop account "username"))]>
                       account))))).
Proof.
  intros Hversion Hresponse Hdata Hsuccess Haccount Hbalance.
  unfold fetchWallet, get, set, del, accounts_get in *.
  rewrite Hversion, run_bind, run_perform_bind, Hresponse.
  rewrite run_lift_bind, Hdata. cbv beta iota.
  rewrite run_lift_bind. cbn [get_prop]. rewrite Hsuccess.
  rewrite run_lift_bind, Haccount. cbv beta iota.
  rewrite run_lift_bind. cbn [get_prop].
  repeat (rewrite run_lift_bind; cbn [set_prop delete_prop]).
  rewrite run_lift. cbn [truthy].
  rewrite run_lift_bind. cbn [get_prop].
  replace (prop (delete "u_multisignatures" _) "balance")
    with (prop account "balance") by (unfold prop; by simplify_map_eq).
  rewrite run_lift_bind, Hbalance. cbv beta iota. by rewrite run_lift.
Qed.

(** C1 fails on the code: for the v1 account the documentation of
    [fetchWallet] gives as its example, which has no username, the wallet
    returned has [isDelegate] true. *)
Theorem documented_account_is_delegate :
  ∃ account wallet,
    documented_account = VObj account ∧
    (run documented_node [] (fetchWallet v1_client "ANQYF8y8PBmg67hSGCA7e67d84sgm8zH3k")).2
      = Ok (VObj wallet) ∧
    account !! "username" = None ∧
    wallet !! "isDelegate" = Some (VBool true).
Proof. eexists _, _. repeat split; vm_compute; reflexivity. Qed.




End Wallets.

(** * Further properties of the client *)

(** ** Wallets, as returned *)

Section WalletShapes.

Import ClientService.

(** X1: for a v1 account that is an object with a readable balance,
    [fetchWallet] returns the account with [isDelegate] set to whether its
    username is other than [null], its balance parsed, the five legacy
    fields gone and every other field as it was. *)
Theorem fetchWallet_v1_shape w this address response data account n :
  is_number 2 (__version this) = false →
  w [] (accounts_get this address) = Ok response →
  get_prop response "data" = Ok (VObj data) →
  truthy (prop data "success") = true →
  prop data "account" = VObj account →
  parseInt (prop account "balance") = Ok n →
  ∃ wallet,
    run w [] (fetchWallet this address)
      = ([accounts_get this address], Ok (VObj wallet)) ∧
    wallet !! "isDelegate"
      = Some (VBool (is_not_null (prop account "username"))) ∧
    wallet !! "balance" = Some (VNum n) ∧
    (∀ k, k ∈ legacy_keys → wallet !! k = None) ∧
    (∀ k, k ∉ legacy_keys → k ≠ "isDelegate" → k ≠ "balance" →
          wallet !! k = account !! k).
Proof.
  intros Hversion Hresponse Hdata Hsuccess Haccount Hbalance.
  eexists. split; [by eapply fetchWallet_v1|].
  unfold without_legacy, legacy_keys.
  split; [by simplify_map_eq|]. split; [by simplify_map_eq|]. split.
  - intros k Hk. repeat (apply elem_of_cons in Hk as [->|Hk]);
      [by simplify_map_eq..|by apply elem_of_nil in Hk].
  - intros k Hk HisDelegate Hbal.
    rewrite !not_elem_of_cons in Hk. destruct Hk as (?&?&?&?&?&_).
    by simplify_map_eq.
Qed.

Lemma fetchWallet_v1_shape_witness :
  ∃ wallet,
    run bob_node [] (fetchWallet v1_client "ADDR1")
      = ([accounts_get v1_client "ADDR1"], Ok (VObj wallet)) ∧
    wallet !! "isDelegate" = Some (VBool true) ∧
    wallet !! "balance" = Some (VNum (Int 100)) ∧
    (∀ k, k ∈ legacy_keys → wallet !! k = None) ∧
    (∀ k, k ∉ legacy_keys → k ≠ "isDelegate" → k ≠ "balance" →
          wallet !! k = bob_account !! k).
Proof.
  refine (fetchWallet_v1_shape bob_node v1_client "ADDR1" bob_response
            (list_to_map [("success", VBool true);
                          ("account", VObj bob_account)])
            bob_account (Int 100) _ _ _ _ _ _); reflexivity.
Defined.

(** X2: a soft failure of the v1 account query makes [fetchWallet] return
    [null], and a v2 wallet that is falsy is returned as it is; neither
    throws, and the balance is not touched. *)
Theorem fetchWallet_without_wallet w this address response data :
  get_prop response "data" = Ok (VObj data) →
  (is_number 2 (__version this) = false →
   w [] (accounts_get this address) = Ok response →
   truthy (prop data "success") = false →
   run w [] (fetchWallet this address)
     = ([accounts_get this address], Ok VNull)) ∧
  (is_number 2 (__version this) = true →
   w [] (wallets_get this address) = Ok response →
   truthy (prop data "data") = false →
   run w [] (fetchWallet this address)
     = ([wallets_get this address], Ok (prop data "data"))).
Proof.
  intros Hdata. unfold fetchWallet, get, accounts_get, wallets_get.
  split; intros Hversion Hresponse Hfalsy;
    rewrite Hversion, run_bind, run_perform_bind, Hresponse;
    rewrite run_lift_bind, Hdata; cbv beta iota.
  - rewrite run_lift_bind. cbn [get_prop]. by rewrite Hfalsy.
  - rewrite run_lift. cbn [get_prop]. by rewrite Hfalsy.
Qed.

Lemma fetchWallet_without_wallet_witness :
  run empty_node [] (fetchWallet v1_client "ADDR1")
    = ([accounts_get v1_client "ADDR1"], Ok VNull).
Proof.
  refine (proj1 (fetchWallet_without_wallet empty_node v1_client "ADDR1"
                   (obj [("data", obj [("success", VBool false)])])
                   (list_to_map [("success", VBool false)]) _) _ _ _);
    reflexivity.
Defined.

End WalletShapes.

(** ** Failures of the transport *)

Section Failures.

Import ClientService.
Variable epoch_date : value → value → outcome value.
Variable human_date : value → outcome value.

(** X3: when the node rejects every request with an error, each query
    makes its one request and fails with that very error: the request is
    not made again, no other request is made, and the failure is not
    turned into a sentinel. *)
Theorem transport_failure_propagates
    w e this address q delegate transactions network :
  node_down e w →
  w [] session_network = Ok network →
  truthy (prop delegate "forged") = false →
  run w [] (fetchPeerStatus this) =
    ([if is_number 1 (__version this)
      then Request (client this) "loader" "configuration" []
      else Request (client this) "node" "syncing" []],
     Err e) ∧
  run w [] (fetchDelegates this) =
    ([Request (client this) "delegates" "all" []], Err e) ∧
  run w [] (fetchDelegateForged this (VObj delegate)) =
    ([Request (client this) "delegates" "forged" [prop delegate "publicKey"]],
     Err e) ∧
  run w [] (fetchTransactions epoch_date human_date this address q) =
    (let q := default default_query q in
     let page := number_or_undefined (page q) in
     let limit := number_or_undefined (limit q) in
     let orderBy := string_or_undefined (orderBy q) in
     if is_number 1 (__version this)
     then [session_network;
           v1_request this address orderBy (offset page limit) limit]
     else [v2_request this address limit page],
     Err e) ∧
  run w [] (fetchWallet this address) =
    ([if is_number 2 (__version this) then wallets_get this address
      else accounts_get this address],
     Err e) ∧
  run w [] (fetchWalletVote this address) =
    ([if is_number 2 (version this) then wallets_votes this address
      else accounts_delegates this address],
     Err e) ∧
  run w [] (broadcastTransaction this transactions) =
    ([create_request this (castArray transactions)], Err e).
Proof.
  intros Hdown Hnetwork Hforged.
  unfold fetchPeerStatus, fetchDelegates, fetchDelegateForged, fetchTransactions,
    fetchWallet, fetchWalletVote, broadcastTransaction, version, get.
  repeat split.
  - destruct (is_number 1 (__version this)); by rewrite run_perform_bind, Hdown.
  - by rewrite run_perform_bind, Hdown.
  - rewrite run_lift_bind. cbn [get_prop]. rewrite Hforged.
    rewrite run_lift_bind. cbn [get_prop]. by rewrite run_perform_bind, Hdown.
  - rewrite run_bind. destruct (is_number 1 (__version this)).
    + fold session_network. rewrite run_perform_bind, Hnetwork.
      by rewrite run_perform_bind, Hdown.
    + by rewrite run_perform_bind, Hdown.
  - rewrite run_bind.
    destruct (is_number 2 (__version this)); by rewrite run_perform_bind, Hdown.
  - destruct (is_number 2 (__version this)); by rewrite run_perform_bind, Hdown.
  - unfold perform. cbn [run]. by rewrite Hdown.
Qed.

(** ** Transactions, as returned *)

Lemma add_utilities_keeps address tx tx' :
  add_utilities address tx = Ok tx' →
  ∃ m m', tx = VObj m ∧ tx' = VObj m' ∧
    ∀ k, k ≠ "isSender" → k ≠ "isReceiver" → k ≠ "totalAmount" →
         m' !! k = m !! k.
Proof.
  unfold add_utilities. intros H.
  apply bind_Ok in H as (sender & Hsender & H).
  apply bind_Ok in H as (tx1 & Htx1 & H).
  apply set_prop_Ok in Htx1 as (m & -> & ->).
  apply bind_Ok in H as (recipient & _ & H).
  apply bind_Ok in H as (tx2 & [= <-] & H).
  apply bind_Ok in H as (amount & _ & H).
  apply bind_Ok in H as (fee & _ & H).
  apply bind_Ok in H as (total & _ & [= <-]).
  eexists _, _. split; [done|]. split; [done|].
  intros k ???. by simplify_map_eq.
Qed.

Lemma v1_transaction_renames network tx tx' :
  v1_transaction epoch_date network tx = Ok tx' →
  ∃ m m', tx = VObj m ∧ tx' = VObj m' ∧
    prop m' "sender" = prop m "senderId" ∧
    prop m' "recipient" = prop m "recipientId" ∧
    m' !! "senderId" = None ∧ m' !! "recipientId" = None ∧
    ∀ k, k ≠ "timestamp" → k ≠ "sender" → k ≠ "recipient" →
         k ≠ "senderId" → k ≠ "recipientId" → m' !! k = m !! k.
Proof.
  unfold v1_transaction. intros H.
  apply bind_Ok in H as (constants & _ & H).
  apply bind_Ok in H as (epoch & _ & H).
  apply bind_Ok in H as (raw & _ & H).
  apply bind_Ok in H as (date & _ & H).
  apply bind_Ok in H as (tx1 & Htx1 & H).
  apply set_prop_Ok in Htx1 as (m & -> & ->).
  cbn [get_prop set_prop delete_prop mbind outcome_bind] in H.
  injection H as <-.
  eexists _, _. split; [done|]. split; [done|].
  unfold prop. repeat split; try by simplify_map_eq.
  intros k ?????. by simplify_map_eq.
Qed.

Lemma v2_transaction_keeps tx tx' :
  v2_transaction human_date tx = Ok tx' →
  ∃ m m', tx = VObj m ∧ tx' = VObj m' ∧
    ∀ k, k ≠ "timestamp" → m' !! k = m !! k.
Proof.
  unfold v2_transaction. intros H.
  apply bind_Ok in H as (timestamp & _ & H).
  apply bind_Ok in H as (human & _ & H).
  apply bind_Ok in H as (date & _ & H).
  apply set_prop_Ok in H as (m & -> & ->).
  eexists _, _. split; [done|]. split; [done|].
  intros k ?. by simplify_map_eq.
Qed.

Lemma Forall2_compose {A B C} (P : A → B → Prop) (Q : B → C → Prop)
    (R : A → C → Prop) l1 l2 l3 :
  (∀ a b c, P a b → Q b c → R a c) →
  Forall2 P l1 l2 → Forall2 Q l2 l3 → Forall2 R l1 l3.
Proof.
  intros HR H12. revert l3.
  induction H12; intros l3 H23; inversion H23; subst; constructor; eauto.
Qed.

Ltac not_in_keys H :=
  rewrite !not_elem_of_cons in H;
  repeat match type of H with
         | _ ∧ _ => let H' := fresh in destruct H as [H' H]
         end.

(** X4: under version 1 a response with a falsy [success] gives the page
    with no transaction and a count of 0. *)
Theorem v1_transactions_soft_failure w this address q network response data :
  is_number 1 (__version this) = true →
  w [] session_network = Ok network →
  node_answers response w →
  get_prop response "data" = Ok (VObj data) →
  truthy (prop data "success") = false →
  (run w [] (fetchTransactions epoch_date human_date this address q)).2
    = Ok (obj [("transactions", VArr []); ("totalCount", VNum (Int 0))]).
Proof.
  intros Hversion Hnetwork Hnode Hdata Hsuccess.
  unfold fetchTransactions, get. rewrite Hversion.
  rewrite run_bind. fold session_network.
  rewrite run_perform_bind, Hnetwork, run_perform_bind, Hnode.
  rewrite run_lift_bind, Hdata. cbv beta iota.
  rewrite run_lift_bind. cbn [get_prop]. by rewrite Hsuccess.
Qed.

(** X5: under version 1 the transactions returned are those of the
    payload, as many and in the same order, each with [senderId] and
    [recipientId] renamed to [sender] and [recipient] and every field the
    code does not write left as it was; the count is [parseInt] of the
    payload's count. *)
Theorem v1_transactions_renamed
    w this address q network response data payload tr result :
  is_number 1 (__version this) = true →
  w [] session_network = Ok network →
  node_answers response w →
  get_prop response "data" = Ok (VObj data) →
  truthy (prop data "success") = true →
  prop data "transactions" = VArr payload →
  run w [] (fetchTransactions epoch_date human_date this address q)
    = (tr, Ok result) →
  ∃ txs n,
    result = obj [("transactions", VArr txs); ("totalCount", VNum n)] ∧
    parseInt (prop data "count") = Ok n ∧
    Forall2 renamed payload txs.
Proof.
  intros Hversion Hnetwork Hnode Hdata Hsuccess Hpayload.
  unfold fetchTransactions, get. rewrite Hversion. intros H.
  apply run_bind_Ok in H as (tr1 & [transactions totalCount] & Hfetch & H).
  apply run_bind_Ok in H as (tr2 & txs & Htxs & H).
  apply run_lift_Ok in Htxs as [_ Htxs]. injection H as _ <-.
  fold session_network in Hfetch.
  rewrite run_perform_bind, Hnetwork, run_perform_bind, Hnode in Hfetch.
  rewrite run_lift_bind, Hdata in Hfetch. cbv beta iota in Hfetch.
  rewrite run_lift_bind in Hfetch. cbn [get_prop] in Hfetch.
  rewrite Hsuccess, run_lift_bind, Hpayload in Hfetch.
  cbv beta iota in Hfetch. rewrite run_lift_bind in Hfetch.
  cbn [array_map] in Hfetch.
  destruct (mapO (v1_transaction epoch_date network) payload) as [mapped|]
    eqn:Hmapped; [|done].
  rewrite run_lift_bind in Hfetch. cbv beta iota in Hfetch.
  rewrite run_lift_bind in Hfetch.
  destruct (parseInt (prop data "count")) as [n|] eqn:Hcount; [|done].
  injection Hfetch as _ <- <-.
  exists txs, n. split; [done|]. split; [done|].
  apply mapO_Ok in Hmapped, Htxs.
  eapply Forall2_compose; [|exact Hmapped|exact Htxs].
  intros a b c Hab Hbc.
  apply v1_transaction_renames in Hab
    as (m & m' & -> & -> & Hsender & Hrecipient & HsenderId & HrecipientId & Hkeep).
  apply add_utilities_keeps in Hbc as (m1 & m2 & [= <-] & -> & Hkeep').
  exists m, m2. split; [done|]. split; [done|].
  unfold prop in *. rewrite !Hkeep' by done.
  repeat split; try done.
  intros k Hk. unfold v1_keys in Hk. not_in_keys Hk.
  rewrite Hkeep' by done. by apply Hkeep.
Qed.

(** X6: under any other version the transactions returned are those of
    the payload, as many and in the same order, each with every field but
    [timestamp], [isSender], [isReceiver] and [totalAmount] as it was; the
    count is the [totalCount] of the payload's [meta]. *)
Theorem v2_transactions_kept
    w this address q response data meta payload tr result :
  is_number 1 (__version this) = false →
  node_answers response w →
  get_prop response "data" = Ok (VObj data) →
  prop data "data" = VArr payload →
  prop data "meta" = VObj meta →
  run w [] (fetchTransactions epoch_date human_date this address q)
    = (tr, Ok result) →
  ∃ txs,
    result = obj [("transactions", VArr txs);
                  ("totalCount", prop meta "totalCount")] ∧
    Forall2 kept payload txs.
Proof.
  intros Hversion Hnode Hdata Hpayload Hmeta.
  unfold fetchTransactions, get. rewrite Hversion. intros H.
  apply run_bind_Ok in H as (tr1 & [transactions totalCount] & Hfetch & H).
  apply run_bind_Ok in H as (tr2 & txs & Htxs & H).
  apply run_lift_Ok in Htxs as [_ Htxs]. injection H as _ <-.
  rewrite run_perform_bind, Hnode in Hfetch.
  rewrite run_lift_bind, Hdata in Hfetch. cbv beta iota in Hfetch.
  rewrite run_lift_bind in Hfetch. cbn [get_prop] in Hfetch.
  rewrite Hpayload, run_lift_bind in Hfetch. cbn [array_map] in Hfetch.
  destruct (mapO (v2_transaction human_date) payload) as [mapped|]
    eqn:Hmapped; [|done].
  rewrite run_lift_bind in Hfetch. cbn [get_prop] in Hfetch.
  rewrite Hmeta, run_lift_bind in Hfetch. cbn [get_prop] in Hfetch.
  injection Hfetch as _ <- <-.
  exists txs. split; [done|].
  apply mapO_Ok in Hmapped, Htxs.
  eapply Forall2_compose; [|exact Hmapped|exact Htxs].
  intros a b c Hab Hbc.
  apply v2_transaction_keeps in Hab as (m & m' & -> & -> & Hkeep).
  apply add_utilities_keeps in Hbc as (m1 & m2 & [= <-] & -> & Hkeep').
  exists m, m2. split; [done|]. split; [done|].
  intros k Hk. unfold v2_keys in Hk. not_in_keys Hk.
  rewrite Hkeep' by done. by apply Hkeep.
Qed.

End Failures.

Section TransactionWitnesses.

Import ClientService.

Lemma transport_failure_propagates_witness :
  run unreachable [] (fetchWallet v1_client "AddR")
    = ([accounts_get v1_client "AddR"], Err (Rejected (VStr "ECONNREFUSED"))) ∧
  run unreachable []
      (fetchTransactions sample_epoch_date sample_human_date
         v1_client "AddR" None)
    = ([session_network;
        v1_request v1_client "AddR" (VStr "timestamp:desc") (VNum (Int (-50)))
          (VNum (Int 50))],
       Err (Rejected (VStr "ECONNREFUSED"))).
Proof.
  pose proof (transport_failure_propagates sample_epoch_date sample_human_date
    unreachable (Rejected (VStr "ECONNREFUSED")) v1_client "AddR" None ∅ VNull
    mainnet_constants) as H.
  destruct H as (_ & _ & _ & Htx & Hwallet & _);
    [intros ?????; reflexivity | reflexivity | reflexivity |].
  by split.
Defined.

Lemma v1_transactions_soft_failure_witness :
  (run soft_failing_node []
     (fetchTransactions sample_epoch_date sample_human_date
        v1_client "AddR" None)).2
  = Ok (obj [("transactions", VArr []); ("totalCount", VNum (Int 0))]).
Proof.
  refine (v1_transactions_soft_failure sample_epoch_date sample_human_date
            soft_failing_node v1_client "AddR" None mainnet_constants
            soft_failure (list_to_map [("success", VBool false)])
            _ _ _ _ _); try reflexivity.
  intros ?????; reflexivity.
Defined.

Lemma v1_transactions_renamed_witness :
  ∃ txs n,
    sample_page = obj [("transactions", VArr txs); ("totalCount", VNum n)] ∧
    parseInt (VStr "1") = Ok n ∧
    Forall2 renamed
      [obj [("senderId", VStr "AddR"); ("recipientId", VStr "AddS");
            ("amount", VNum (Int 100)); ("fee", VNum (Int 10));
            ("timestamp", VNum (Int 5))]] txs.
Proof.
  refine (v1_transactions_renamed sample_epoch_date sample_human_date
            one_transfer_node v1_client "AddR" None mainnet_constants
            (match one_transfer_node [] (Request (client v1_client) "" "" []) with
             | Ok response => response
             | Err _ => VUndef
             end)
            (list_to_map [
               ("success", VBool true); ("count", VStr "1");
               ("transactions", VArr [
                  obj [("senderId", VStr "AddR"); ("recipientId", VStr "AddS");
                       ("amount", VNum (Int 100)); ("fee", VNum (Int 10));
                       ("timestamp", VNum (Int 5))]])])
            _
            (run one_transfer_node []
               (fetchTransactions sample_epoch_date sample_human_date
                  v1_client "AddR" None)).1
            sample_page _ _ _ _ _ _ _); try reflexivity.
  intros ?????; reflexivity.
Defined.

Lemma v2_transactions_kept_witness :
  ∃ txs,
    sample_v2_page = obj [("transactions", VArr txs);
                          ("totalCount", VNum (Int 1))] ∧
    Forall2 kept [v2_transfer] txs.
Proof.
  refine (v2_transactions_kept sample_epoch_date sample_human_date
            v2_node v2_client "AddR" None v2_response v2_page
            (list_to_map [("totalCount", VNum (Int 1))]) [v2_transfer]
            (run v2_node []
               (fetchTransactions sample_epoch_date sample_human_date
                  v2_client "AddR" None)).1
            sample_v2_page _ _ _ _ _ _); try reflexivity.
  intros ?????; reflexivity.
Defined.

End TransactionWitnesses.

(** ** Delegates *)

Section Delegates.

Import ClientService.

(** X7: a delegate that carries its forged amounts is answered from them:
    [fetchDelegateForged] returns [forged.total] and asks the node
    nothing. *)
Theorem forged_total_is_cached w this delegate forged :
  prop delegate "forged" = VObj forged →
  run w [] (fetchDelegateForged this (VObj delegate))
    = ([], Ok (prop forged "total")).
Proof.
  intros Hforged. unfold fetchDelegateForged, get.
  rewrite run_lift_bind. cbn [get_prop]. rewrite Hforged. cbn [truthy].
  by rewrite run_lift.
Qed.

Lemma forged_total_is_cached_witness :
  run unreachable []
    (fetchDelegateForged v1_client
       (obj [("forged", obj [("total", VStr "24600000000")])]))
  = ([], Ok (VStr "24600000000")).
Proof.
  refine (forged_total_is_cached unreachable v1_client
            (list_to_map [("forged", obj [("total", VStr "24600000000")])])
            (list_to_map [("total", VStr "24600000000")]) _).
  reflexivity.
Defined.

(** X8: under version 2 [fetchDelegates] returns the page of the node as
    it is; under another version, for a successful response, it returns as
    many delegates as the payload has, in the same order, each with [rank],
    [blocks] and [production] made of its [rate], [producedblocks],
    [missedblocks], [approval] and [productivity], and its other fields
    kept. *)
Theorem delegates_remapped w this response data payload :
  w [] (Request (client this) "delegates" "all" []) = Ok response →
  get_prop response "data" = Ok (VObj data) →
  (is_number 2 (__version this) = true →
     (run w [] (fetchDelegates this)).2 = Ok (prop data "data")) ∧
  (is_number 2 (__version this) = false →
   truthy (prop data "success") = true →
   prop data "delegates" = VArr payload →
   Forall (λ delegate, ∃ m, delegate = VObj m) payload →
   ∃ delegates, (run w [] (fetchDelegates this)).2 = Ok (VArr delegates) ∧
     Forall2 remapped payload delegates).
Proof.
  intros Hresponse Hdata. unfold fetchDelegates, get.
  rewrite run_perform_bind, Hresponse, run_lift_bind, Hdata. cbv beta iota.
  split; intros Hversion; rewrite Hversion.
  - by rewrite run_lift.
  - intros Hsuccess Hpayload Hobjects.
    rewrite run_lift_bind. cbn [get_prop]. rewrite Hsuccess.
    rewrite run_lift_bind, Hpayload. cbv beta iota.
    rewrite run_lift_bind. cbn [array_map].
    match goal with |- context [mapO ?f payload] => set (callback := f) end.
    assert (Hmapped : ∃ delegates, mapO callback payload = Ok delegates ∧
                                  Forall2 remapped payload delegates).
    { clear -Hobjects. induction Hobjects as [|delegate payload [m ->] _ IH].
      - exists []. by split; [|constructor].
      - destruct IH as (delegates & Hdelegates & IH).
        eexists (_ :: delegates). cbn [mapO]. rewrite Hdelegates.
        split; [reflexivity|]. constructor; [|done].
        eexists m, _. split; [done|]. split; [reflexivity|].
        cbn [own_props]. repeat split; try by simplify_map_eq.
        intros k ???. by simplify_map_eq. }
    destruct Hmapped as (delegates & -> & Hremapped). by exists delegates.
Qed.

Lemma delegates_remapped_witness :
  ∃ delegates,
    (run delegates_node [] (fetchDelegates v1_client)).2 = Ok (VArr delegates) ∧
    Forall2 remapped [genesis_1] delegates.
Proof.
  refine (proj2 (delegates_remapped delegates_node v1_client delegates_response
                   delegates_page [genesis_1] _ _) _ _ _ _); try reflexivity.
  constructor; [|constructor]. eexists. reflexivity.
Defined.

End Delegates.

(** ** The profile watcher and the peer system, once more *)

Section Rebinding.

Import ClientService PeerSystem.

(** X9: when the selected peer has something other than a string for its
    version, [profile_changed] fails with a type error after it has bound
    the host to the peer: the host read back from the client is the
    peer's, and so is the host of the API client underneath; the version
    is the one bound before, on both; no ['client:changed'] is emitted. *)
Theorem peer_without_version_half_rebinds (w : env) (this : ClientService.t)
    (profile networkId network server apiVersion currentPeer : value)
    (ip port : string) (peer_version : value) :
  truthy profile = true →
  get_prop profile "networkId" = Ok networkId →
  w [] (network_by_id networkId) = Ok network →
  get_prop network "server" = Ok server →
  get_prop network "apiVersion" = Ok apiVersion →
  w [network_by_id networkId] peer_current = Ok currentPeer →
  truthy currentPeer && has_keys currentPeer = true →
  get_prop currentPeer "ip" ≫= to_string = Ok ip →
  get_prop currentPeer "port" ≫= to_string = Ok port →
  get_prop currentPeer "version" = Ok peer_version →
  is_str peer_version = false →
  ∃ this',
    run w [] (profile_changed this profile) =
      ([network_by_id networkId; peer_current], Ok (this', Err TypeError)) ∧
    host_only (VStr ("http://" +:+ ip +:+ ":" +:+ port)) this this'.
Proof.
  intros Hprofile HnetworkId Hnetwork Hserver HapiVersion Hpeer Hselected
    Hip Hport Hversion Hstr.
  rewrite (run_profile_changed_peer w [] this profile networkId network
             server apiVersion currentPeer ip port peer_version) by done.
  destruct peer_version; try done; eexists; (split; [done|by repeat split]).
Qed.

Lemma peer_without_version_half_rebinds_witness :
  ∃ this',
    run (store_with peer_without_version) [] (profile_changed fresh mainnet_profile) =
      ([network_by_id (VStr "ark.mainnet"); peer_current],
       Ok (this', Err TypeError)) ∧
    host_only (VStr "http://1.2.3.4:4003") fresh this'.
Proof.
  refine (peer_without_version_half_rebinds (store_with peer_without_version)
    fresh mainnet_profile (VStr "ark.mainnet") mainnet
    (VStr "https://explorer.ark.io:8443") (VNum (Int 1)) peer_without_version
    "1.2.3.4" "4003" VUndef _ _ _ _ _ _ _ _ _ _ _); reflexivity.
Defined.

(** X10: with a current peer whose refresh succeeds, [update] sets the
    refreshed peer as the current one and does nothing else: no clearing,
    no reconnection, no log. *)
Theorem update_refreshes_current_peer w peer peer' ack :
  w [] current_peer = Ok peer →
  truthy peer = true →
  w [current_peer] (Dispatch "peer/update" [peer]) = Ok peer' →
  let set_current :=
    Dispatch "peer/current/set"
      [obj [("peer", peer')]; obj [("root", VBool true)]] in
  w [current_peer; Dispatch "peer/update" [peer]] set_current = Ok ack →
  run w [] update =
    ([current_peer; Dispatch "peer/update" [peer]; set_current], Ok VUndef).
Proof.
  intros Hpeer Htruthy Hupdate set_current Hset. subst set_current.
  unfold update, current_peer in *.
  rewrite run_perform_bind, Hpeer, Htruthy. cbn [negb].
  rewrite run_catch, run_perform_bind. cbn [app]. rewrite Hupdate.
  rewrite run_perform_bind. cbn [app]. by rewrite Hset.
Qed.

Lemma update_refreshes_current_peer_witness :
  run (λ _ _, Ok peer_v2) [] update =
    ([current_peer; Dispatch "peer/update" [peer_v2];
      Dispatch "peer/current/set"
        [obj [("peer", peer_v2)]; obj [("root", VBool true)]]],
     Ok VUndef).
Proof.
  refine (update_refreshes_current_peer (λ _ _, Ok peer_v2)
            peer_v2 peer_v2 peer_v2 _ _ _ _); reflexivity.
Defined.

End Rebinding.

Section BuildOrder.

Import TransactionBuilder ClientService.

(** X11: every build operation attaches the assets first, then signs, then
    signs a second time: the steps of the draft are the asset steps, the
    primary signature if any, and the second signature if any, in this
    order; the second-signature registration has the second passphrase as
    its asset and no second signature. *)
Theorem build_steps_in_order (a : build_args) :
  buildVote a =
    {| draft_kind := Vote;
       steps := [VotesAsset (arg_votes a)] ++ primary_steps a ++ second_steps a |} ∧
  buildDelegateRegistration a =
    {| draft_kind := DelegateRegistration;
       steps := [UsernameAsset (arg_username a)]
                  ++ primary_steps a ++ second_steps a |} ∧
  buildTransfer a =
    {| draft_kind := Transfer;
       steps := [Amount (arg_amount a); RecipientId (arg_recipientId a);
                 VendorField (arg_vendorField a)]
                  ++ primary_steps a ++ second_steps a |} ∧
  buildSecondSignatureRegistration a =
    {| draft_kind := SecondSignature;
       steps := [SignatureAsset (arg_secondPassphrase a)] ++ primary_steps a |}.
Proof.
  unfold buildVote, buildDelegateRegistration, buildTransfer,
    buildSecondSignatureRegistration, primary_steps, second_steps.
  destruct (truthy (arg_passphrase a)), (truthy (arg_wif a)),
    (truthy (arg_secondPassphrase a)); done.
Qed.

End BuildOrder.

(** ** The host of the current peer *)

Section HostPatterns.

Import HostPattern.

Local Abbreviation chars := Stdlib.Strings.String.list_ascii_of_string.
Local Abbreviation of_chars := Stdlib.Strings.String.string_of_list_ascii.

Lemma chars_app s1 s2 : chars (s1 +:+ s2) = chars s1 ++ chars s2.
Proof.
  induction s1 as [|c s1 IH]; [done|].
  change (c :: chars (s1 +:+ s2) = c :: chars s1 ++ chars s2). by rewrite IH.
Qed.

Lemma of_chars_chars s : of_chars (chars s) = s.
Proof. apply Stdlib.Strings.String.string_of_list_ascii_of_string. Qed.

Lemma chars_of_chars l : chars (of_chars l) = l.
Proof. apply Stdlib.Strings.String.list_ascii_of_string_of_list_ascii. Qed.

Lemma take_while_all p l :
  Forall (λ c, p c = true) l → take_while p l = l.
Proof. induction 1 as [|c l Hc _ IH]; [done|]. cbn. by rewrite Hc, IH. Qed.

Lemma take_while_Forall p l : Forall (λ c, p c = true) (take_while p l).
Proof.
  induction l as [|c l IH]; cbn; [constructor|].
  destruct (p c) eqn:Hc; by constructor.
Qed.

Lemma port_char_not_colon c l :
  is_port_char c = true → match_port (c :: l) = None.
Proof.
  intros H. destruct c as [[] [] [] [] [] [] [] []];
    vm_compute in H; try discriminate H; reflexivity.
Qed.

Lemma port_char_is_host_char c : is_port_char c = true → is_host_char c = true.
Proof.
  unfold is_host_char, is_port_char. intros ->. by rewrite !orb_true_r.
Qed.

Lemma match_port_digits l :
  Forall (λ c, is_port_char c = true) l → match_port l = None.
Proof. destruct 1; [done|]. by apply port_char_not_colon. Qed.

Lemma match_port_colon l :
  Forall (λ c, is_port_char c = true) l → l ≠ [] →
  match_port (":"%char :: l) = Some l.
Proof.
  intros Hl Hne. cbn [match_port]. rewrite take_while_all by done.
  by destruct l.
Qed.

Lemma match_port_Some s port :
  match_port s = Some port →
  port ≠ [] ∧ Forall (λ c, is_port_char c = true) port.
Proof.
  unfold match_port. destruct s as [|c rest]; [done|].
  destruct (decide (c = ":"%char)) as [->|Hc].
  - pose proof (take_while_Forall is_port_char rest) as Hall.
    destruct (take_while is_port_char rest) eqn:Hport; [done|].
    intros [= <-]. by split.
  - destruct c as [[] [] [] [] [] [] [] []]; try discriminate 1.
    by destruct Hc.
Qed.

(** The second group gives back the digits of the port and the colon. *)
Lemma match_host_back ip port k :
  ip ≠ [] → port ≠ [] → Forall (λ c, is_port_char c = true) port →
  (k ≤ S (length port))%nat →
  match_host (length ip + k) (ip ++ ":"%char :: port) = Some (ip, port).
Proof.
  intros Hip Hport Hdigits. induction k as [|k IH]; intros Hk.
  - rewrite Nat.add_0_r. destruct (length ip) as [|n] eqn:Hn.
    { by destruct ip. }
    cbn [match_host]. rewrite <- Hn, drop_app_length, take_app_length.
    by rewrite match_port_colon.
  - rewrite Nat.add_succ_r. cbn [match_host]. rewrite <- Nat.add_succ_r.
    rewrite drop_app_add'. 2: done.
    cbn [drop]. rewrite match_port_digits.
    + apply IH. lia.
    + by apply Forall_drop.
Qed.

Lemma strip_prefix_app p s : strip_prefix p (p ++ s) = Some s.
Proof.
  induction p as [|c p IH]; [done|]. cbn. by rewrite Ascii.eqb_refl.
Qed.

Lemma match_after_scheme scheme ip port :
  host_chars ip → ip ≠ "" → port_chars port → port ≠ "" →
  match_after scheme (chars (scheme +:+ ip +:+ ":" +:+ port))
    = Some (scheme, ip, port).
Proof.
  intros Hip Hipne Hport Hportne. unfold match_after.
  rewrite chars_app, strip_prefix_app. cbn [mbind option_bind].
  rewrite chars_app. change (chars (":" +:+ port)) with (":"%char :: chars port).
  rewrite take_while_all.
  2:{ apply Forall_app. split; [done|]. constructor; [done|].
      eapply Forall_impl; [exact Hport|]. apply port_char_is_host_char. }
  rewrite length_app. cbn [length].
  rewrite match_host_back.
  - cbn. by rewrite !of_chars_chars.
  - by destruct ip.
  - by destruct port.
  - done.
  - lia.
Qed.

Lemma match_after_https_on_http s :
  match_after "https://" (chars ("http://" +:+ s)) = None.
Proof. done. Qed.

Lemma match_here_bound scheme ip port :
  scheme = "http://" ∨ scheme = "https://" →
  host_chars ip → ip ≠ "" → port_chars port → port ≠ "" →
  match_here (chars (scheme +:+ ip +:+ ":" +:+ port)) = Some (scheme, ip, port).
Proof.
  intros [-> | ->] Hip Hipne Hport Hportne; unfold match_here.
  - rewrite match_after_https_on_http. by apply match_after_scheme.
  - by rewrite match_after_scheme.
Qed.

Lemma exec_bound scheme ip port :
  scheme = "http://" ∨ scheme = "https://" →
  host_chars ip → ip ≠ "" → port_chars port → port ≠ "" →
  exec (scheme +:+ ip +:+ ":" +:+ port) = Some (scheme, ip, port).
Proof.
  intros Hscheme Hip Hipne Hport Hportne. unfold exec.
  pose proof (match_here_bound scheme ip port Hscheme Hip Hipne Hport Hportne) as H.
  destruct (chars (scheme +:+ ip +:+ ":" +:+ port)); cbn [exec_from]; by rewrite H.
Qed.

Lemma match_host_Some n s ip port :
  match_host n s = Some (ip, port) →
  port ≠ [] ∧ Forall (λ c, is_port_char c = true) port.
Proof.
  induction n as [|n IH]; [done|]. cbn [match_host].
  destruct (match_port (drop (S n) s)) as [p|] eqn:Hp; [|done].
  intros [= _ <-]. by eapply match_port_Some.
Qed.

Lemma match_after_Some scheme s groups :
  match_after scheme s = Some groups →
  ∃ ip port, groups = (scheme, ip, port) ∧ port ≠ "" ∧ port_chars port.
Proof.
  unfold match_after.
  destruct (strip_prefix (chars scheme) s) as [rest|]; [|done]. cbn [mbind option_bind].
  destruct (match_host _ rest) as [[ip port]|] eqn:Hhost; [|done].
  intros [= <-]. apply match_host_Some in Hhost as [Hne Hall].
  eexists _, _. split; [done|]. unfold port_chars. rewrite chars_of_chars.
  split; [|done]. by destruct port.
Qed.

Lemma exec_Some s groups :
  exec s = Some groups →
  ∃ scheme ip port, groups = (scheme, ip, port) ∧ port ≠ "" ∧ port_chars port.
Proof.
  unfold exec. generalize (chars s). intros l.
  assert (Hhere : ∀ l, match_here l = Some groups →
    ∃ scheme ip port, groups = (scheme, ip, port) ∧ port ≠ "" ∧ port_chars port).
  { clear. intros l. unfold match_here.
    destruct (match_after "https://" l) eqn:Hs.
    - intros [= <-]. apply match_after_Some in Hs as (?&?&?). eauto.
    - intros H. apply match_after_Some in H as (?&?&?). eauto. }
  induction l as [|c l IH]; cbn [exec_from].
  - destruct (match_here []) eqn:H; [|done]. intros [= <-]. eauto.
  - destruct (match_here (c :: l)) eqn:H; [|done]. intros [= <-]. eauto.
Qed.

End HostPatterns.

Section Peers.

Import ClientService.

(** X12: a host bound as [http://ip:port] or [https://ip:port], with an
    [ip] of host characters and a port of digits, parses back to that ip
    and that port; the port comes back as a string. *)
Theorem bound_host_parses_back this scheme ip port :
  scheme = "http://" ∨ scheme = "https://" →
  host_chars ip → ip ≠ "" → port_chars port → port ≠ "" →
  __parseCurrentPeer (set_host (VStr (scheme +:+ ip +:+ ":" +:+ port)) this)
    = Ok (obj [("ip", VStr ip); ("port", VStr port)]).
Proof.
  intros Hscheme Hip Hipne Hport Hportne. unfold __parseCurrentPeer.
  cbn [client set_host ApiClient.setConnection ApiClient.http_host to_string
       mbind outcome_bind].
  rewrite exec_bound by done. cbn [truthy].
  by destruct port.
Qed.

Lemma bound_host_parses_back_witness :
  __parseCurrentPeer (set_host (VStr "http://1.2.3.4:4003") fresh)
    = Ok (obj [("ip", VStr "1.2.3.4"); ("port", VStr "4003")]).
Proof.
  refine (bound_host_parses_back fresh "http://" "1.2.3.4" "4003" _ _ _ _ _);
    [by left | | done | | done]; repeat constructor.
Defined.

(** X13: whenever [__parseCurrentPeer] returns, the port it returns is a
    non-empty string of digits taken from the host: the defaults 443 and
    80 are never used, and the port is never a number. *)
Theorem parsed_port_is_digits this peer :
  __parseCurrentPeer this = Ok peer →
  ∃ ip port, peer = obj [("ip", VStr ip); ("port", VStr port)] ∧
             port ≠ "" ∧ port_chars port.
Proof.
  unfold __parseCurrentPeer. intros H.
  apply bind_Ok in H as (host & _ & H).
  destruct (HostPattern.exec host) as [[[scheme ip] port]|] eqn:Hexec; [|done].
  apply exec_Some in Hexec as (? & ? & ? & [= <- <- <-] & Hne & Hdigits).
  assert (Htruthy : truthy (VStr port) = true) by (by destruct port).
  rewrite Htruthy in H. injection H as <-. eauto.
Qed.

Lemma parsed_port_is_digits_witness :
  ∃ ip port,
    obj [("ip", VStr "explorer.ark.io"); ("port", VStr "8443")]
      = obj [("ip", VStr ip); ("port", VStr port)] ∧
    port ≠ "" ∧ port_chars port.
Proof.
  refine (parsed_port_is_digits
            (set_host (VStr "https://explorer.ark.io:8443/api") fresh) _ _).
  vm_compute. reflexivity.
Defined.

(** X14: [fetchPeers] asks for the peers of a network with no peer list
    ([null]) when a network is given; without a network it passes on a
    non-empty list of peers as it is, and replaces a missing or empty list
    by the one peer parsed from the bound host, failing before any request
    when that host does not parse.  The answer is returned as it is. *)
Theorem fetchPeers_request w this network peers :
  (truthy network = true →
     run w [] (fetchPeers this network peers) =
       ([find_peers this network VNull], w [] (find_peers this network VNull))) ∧
  (truthy network = false → ∀ peer rest, peers = VArr (peer :: rest) →
     run w [] (fetchPeers this network peers) =
       ([find_peers this network peers], w [] (find_peers this network peers))) ∧
  (truthy network = false → is_empty_list peers →
     run w [] (fetchPeers this network peers) =
       match __parseCurrentPeer this with
       | Ok peer =>
           ([find_peers this network (VArr [peer])],
            w [] (find_peers this network (VArr [peer])))
       | Err e => ([], Err e)
       end).
Proof.
  assert (Hperform : ∀ eff, run w [] (perform eff) = ([eff], w [] eff)).
  { intros eff. unfold perform. cbn [run]. by destruct (w [] eff). }
  unfold fetchPeers, find_peers, get. repeat split.
  - intros ->. rewrite run_bind. cbn [run]. apply Hperform.
  - intros -> peer rest ->. rewrite run_bind, run_lift_bind.
    cbn [get_prop String.eqb]. cbn. apply Hperform.
  - intros -> [-> | ->]; cbv beta iota zeta; rewrite run_bind, run_lift_bind;
      change (get_prop (VArr []) "length") with (Ok (VNum (Int 0)));
      cbv beta iota; cbn [truthy negb andb Z.eqb];
      rewrite run_lift_bind; destruct (__parseCurrentPeer this);
      cbn [run mret prog_ret]; try done; apply Hperform.
Qed.

Lemma fetchPeers_request_witness :
  run empty_node [] (fetchPeers fresh VNull VUndef) = ([], Err TypeError) ∧
  run empty_node [] (fetchPeers fresh (VStr "mainnet") VUndef) =
    ([find_peers fresh (VStr "mainnet") VNull],
     empty_node [] (find_peers fresh (VStr "mainnet") VNull)).
Proof.
  split.
  - refine (proj2 (proj2 (fetchPeers_request empty_node fresh VNull VUndef))
              _ _); [reflexivity | by left].
  - refine (proj1 (fetchPeers_request empty_node fresh (VStr "mainnet") VUndef)
              _); reflexivity.
Defined.

End Peers.

(** ** Votes, broadcasts and probes *)

Lemma get_first x l : get_prop (VArr (x :: l)) "0" = Ok x.
Proof. reflexivity. Qed.

Lemma get_length l :
  get_prop (VArr l) "length" = Ok (VNum (Int (Z.of_nat (length l)))).
Proof. reflexivity. Qed.

Lemma truthy_length {A} (x : A) l :
  truthy (VNum (Int (Z.of_nat (length (x :: l))))) = true.
Proof.
  cbn [length truthy]. rewrite Nat2Z.inj_succ.
  destruct (Z.eqb_spec (Z.succ (Z.of_nat (length l))) 0); [lia|done].
Qed.

Section Votes.

Import ClientService.

(** X15: [fetchWalletVote] returns [null] for a wallet that has not voted
    (an empty list of votes under version 2; a soft failure or no delegate
    otherwise); for one that has, it returns the first vote without its
    first character under version 2, and the public key of the first
    delegate otherwise. *)
Theorem wallet_vote w this address response data :
  get_prop response "data" = Ok (VObj data) →
  (is_number 2 (version this) = true →
   w [] (wallets_votes this address) = Ok response →
   (prop data "data" = VArr [] →
      (run w [] (fetchWalletVote this address)).2 = Ok VNull) ∧
   (∀ first rest asset sign key more,
      prop data "data" = VArr (VObj first :: rest) →
      prop first "asset" = VObj asset →
      prop asset "votes" = VArr (VStr (String sign key) :: more) →
      (run w [] (fetchWalletVote this address)).2 = Ok (VStr key))) ∧
  (is_number 2 (version this) = false →
   w [] (accounts_delegates this address) = Ok response →
   (truthy (prop data "success") = false →
      (run w [] (fetchWalletVote this address)).2 = Ok VNull) ∧
   (truthy (prop data "success") = true → prop data "delegates" = VArr [] →
      (run w [] (fetchWalletVote this address)).2 = Ok VNull) ∧
   (∀ first rest,
      truthy (prop data "success") = true →
      prop data "delegates" = VArr (VObj first :: rest) →
      (run w [] (fetchWalletVote this address)).2 = Ok (prop first "publicKey"))).
Proof.
  intros Hdata.
  unfold fetchWalletVote, wallets_votes, accounts_delegates, get.
  split; intros Hversion Hresponse; rewrite Hversion;
    rewrite run_perform_bind, Hresponse, run_lift_bind, Hdata; cbv beta iota;
    rewrite run_lift_bind; cbn [get_prop]; cbv beta iota.
  - split.
    + intros ->. by rewrite run_lift_bind.
    + intros first rest asset sign key more -> Hasset Hvotes.
      rewrite run_lift_bind, get_length. cbv beta iota.
      rewrite truthy_length, run_lift_bind, get_first. cbv beta iota.
      rewrite run_lift_bind. cbn [get_prop]. rewrite Hasset.
      rewrite run_lift_bind. cbn [get_prop]. rewrite Hvotes.
      by rewrite run_lift_bind, get_first.
  - split; [|split].
    + by intros ->.
    + intros -> ->. rewrite run_lift_bind. cbv beta iota.
      by rewrite run_lift_bind.
    + intros first rest -> Hdelegates. rewrite Hdelegates, run_lift_bind.
      cbv beta iota.
      rewrite run_lift_bind, get_length. cbv beta iota.
      rewrite truthy_length, run_lift_bind. cbv beta iota.
      by rewrite run_lift_bind, get_first.
Qed.

Lemma wallet_vote_witness :
  (run voted_node [] (fetchWalletVote v2_client "AddR")).2
    = Ok (VStr "02abc") ∧
  (run empty_node [] (fetchWalletVote v1_client "AddR")).2 = Ok VNull.
Proof.
  split.
  - refine (proj2 (proj1 (wallet_vote voted_node v2_client "AddR"
      voted_response _ _) _ _) _ [] _ "+"%char "02abc" [] _ _ _);
      reflexivity.
  - refine (proj1 (proj2 (wallet_vote empty_node v1_client "AddR"
      (obj [("data", obj [("success", VBool false)])])
      (list_to_map [("success", VBool false)]) _) _ _) _); reflexivity.
Defined.

(** X16: [broadcastTransaction] sends a list as it is and anything else as
    the list of that one thing, so that broadcasting a transaction and
    broadcasting the list of it are the same program; the answer of the
    node, or its rejection, is what the caller gets. *)
Theorem broadcast_casts_to_list w this transactions :
  (∀ list, transactions = VArr list →
     run w [] (broadcastTransaction this transactions) =
       ([create_request this transactions],
        w [] (create_request this transactions))) ∧
  (is_array transactions = false →
     run w [] (broadcastTransaction this transactions) =
       ([create_request this (VArr [transactions])],
        w [] (create_request this (VArr [transactions]))) ∧
     broadcastTransaction this transactions =
       broadcastTransaction this (VArr [transactions])).
Proof.
  assert (Hperform : ∀ eff, run w [] (perform eff) = ([eff], w [] eff)).
  { intros eff. unfold perform. cbn [run]. by destruct (w [] eff). }
  unfold broadcastTransaction, create_request. split.
  - intros list ->. apply Hperform.
  - intros Harray. by destruct transactions; [split; [apply Hperform|]..|done|].
Qed.

Lemma broadcast_casts_to_list_witness :
  broadcastTransaction v2_client (obj [("id", VStr "tx1")]) =
  broadcastTransaction v2_client (VArr [obj [("id", VStr "tx1")]]).
Proof.
  refine (proj2 (proj2 (broadcast_casts_to_list empty_node v2_client
                          (obj [("id", VStr "tx1")])) _)).
  reflexivity.
Defined.

(** X17: [fetchNetworkConfig] asks through a client of its own, bound to
    the given server and version and given the timeout only when it is
    truthy: for version 1 the status of the loader, whose [network] it
    returns; for any other version the configuration of the node, whose
    [data] it returns. *)
Theorem network_config_probe w server apiVersion timeout response data :
  (∀ tr client resource method args,
     w tr (Request client resource method args) = Ok response) →
  get_prop response "data" = Ok (VObj data) →
  run w [] (fetchNetworkConfig server apiVersion timeout) =
    if is_number 1 apiVersion then
      ([Request (probe_client server apiVersion timeout) "loader" "status" []],
       Ok (prop data "network"))
    else
      ([Request (probe_client server apiVersion timeout) "node" "configuration" []],
       Ok (prop data "data")).
Proof.
  intros Hnode Hdata. unfold fetchNetworkConfig, probe_client, get.
  destruct (is_number 1 apiVersion), (truthy timeout);
    by rewrite run_perform_bind, Hnode, run_lift_bind, Hdata, run_lift.
Qed.

Lemma network_config_probe_witness :
  run config_node [] (fetchNetworkConfig (VStr "http://1.2.3.4:4003")
                        (VNum (Int 2)) (VNum (Int 0))) =
    ([Request (probe_client (VStr "http://1.2.3.4:4003") (VNum (Int 2))
                 (VNum (Int 0))) "node" "configuration" []],
     Ok (obj [("nethash", VStr "2a44f340d76ffc3d")])).
Proof.
  refine (network_config_probe config_node (VStr "http://1.2.3.4:4003")
            (VNum (Int 2)) (VNum (Int 0)) config_response
            (list_to_map [("network", obj [("nethash", VStr "6e84d08bd299ed97")]);
                          ("data", obj [("nethash", VStr "2a44f340d76ffc3d")])])
            _ _); [intros ?????|]; reflexivity.
Defined.

End Votes.

Section Dialects.

Import ClientService.
Variable epoch_date : value → value → outcome value.
Variable human_date : value → outcome value.

(** X18: a client whose version is neither 1 nor 2 (a client not yet
    bound) speaks both dialects: [fetchPeerStatus] and [fetchTransactions]
    ask the v2 resources, [fetchWallet] and [fetchWalletVote] the v1
    ones. *)
Theorem unversioned_client_mixes_dialects w this address q :
  is_number 1 (__version this) = false →
  is_number 2 (__version this) = false →
  (run w [] (fetchPeerStatus this)).1
    = [Request (client this) "node" "syncing" []] ∧
  (run w [] (fetchTransactions epoch_date human_date this address q)).1
    = [v2_request this address
         (number_or_undefined (limit (default default_query q)))
         (number_or_undefined (page (default default_query q)))] ∧
  (run w [] (fetchWallet this address)).1 = [accounts_get this address] ∧
  (run w [] (fetchWalletVote this address)).1 = [accounts_delegates this address].
Proof.
  intros Hv1 Hv2. repeat split.
  - unfold fetchPeerStatus. rewrite Hv1, run_perform_bind.
    match goal with |- context [w ?tr ?eff] => destruct (w tr eff) end; [|done].
    by rewrite effect_free_run by effect_free.
  - by rewrite fetchTransactions_trace, Hv1.
  - unfold fetchWallet. rewrite Hv2, trace_bind_free by effect_free.
    rewrite run_perform_bind. unfold accounts_get.
    match goal with |- context [w ?tr ?eff] => destruct (w tr eff) end; [|done].
    by rewrite effect_free_run by effect_free.
  - unfold fetchWalletVote, version. rewrite Hv2, run_perform_bind.
    unfold accounts_delegates.
    match goal with |- context [w ?tr ?eff] => destruct (w tr eff) end; [|done].
    by rewrite effect_free_run by effect_free.
Qed.
End Dialects.

Lemma unversioned_client_mixes_dialects_witness :
  (run empty_node [] (ClientService.fetchPeerStatus fresh)).1
    = [Request (ClientService.client fresh) "node" "syncing" []] ∧
  (run empty_node [] (ClientService.fetchWallet fresh "AddR")).1
    = [accounts_get fresh "AddR"].
Proof.
  destruct (unversioned_client_mixes_dialects sample_epoch_date
              sample_human_date empty_node fresh "AddR" None)
    as (Hstatus & _ & Hwallet & _); [reflexivity..|].
  by split.
Defined.

(** ** Construction and unknown networks *)

Section Construction.

Import ClientService.

(** X19: a client constructed with the profile watcher (the default) is
    bound when the constructor returns, if the store has an active profile
    whose network it resolves: [store.watch] is given [immediate: true],
    so the callback runs at once on the profile the store has.  After one
    read of ['session/profile'] the store is asked as on a change of
    profile, and the host and the version read back from the new client
    are those of the selected peer, or of the network when no peer is
    selected: not the [null] the constructor begins with. *)
Theorem constructor_binds_at_once (w : env)
    (profile networkId network server apiVersion currentPeer : value) :
  w [] session_profile = Ok profile →
  truthy profile = true →
  get_prop profile "networkId" = Ok networkId →
  w [session_profile] (network_by_id networkId) = Ok network →
  get_prop network "server" = Ok server →
  get_prop network "apiVersion" = Ok apiVersion →
  w [session_profile; network_by_id networkId] peer_current = Ok currentPeer →
  let trace :=
    [session_profile; network_by_id networkId; peer_current; client_changed] in
  (truthy currentPeer && has_keys currentPeer = true →
   ∀ ip port version,
     get_prop currentPeer "ip" ≫= to_string = Ok ip →
     get_prop currentPeer "port" ≫= to_string = Ok port →
     get_prop currentPeer "version" = Ok (VStr version) →
     ∃ this,
       run w [] (constructor true) = (trace, Ok (this, Ok VUndef)) ∧
       bound_to (VStr ("http://" +:+ ip +:+ ":" +:+ port))
                (VNum (Int (if starts_with "2." version then 2 else 1)))
                fresh this) ∧
  (truthy currentPeer && has_keys currentPeer = false →
   ∃ this,
     run w [] (constructor true) = (trace, Ok (this, Ok VUndef)) ∧
     bound_to server apiVersion fresh this).
Proof.
  intros Hprofile Htruthy HnetworkId Hnetwork Hserver HapiVersion Hpeer trace.
  unfold constructor, __watchProfile, attempt.
  rewrite run_catch, run_perform_bind. fold session_profile fresh.
  rewrite Hprofile. cbn [app].
  split.
  - intros Hselected ip port version Hip Hport Hversion.
    rewrite (run_profile_changed_peer w [session_profile] fresh profile
               networkId network server apiVersion currentPeer ip port
               (VStr version)) by done.
    eexists. split; [done|by repeat split].
  - intros Hselected.
    rewrite (run_profile_changed_server w [session_profile] fresh profile
               networkId network server apiVersion currentPeer) by done.
    eexists. split; [done|by repeat split].
Qed.

Lemma constructor_binds_at_once_witness :
  ∃ this,
    run (store_of mainnet_profile peer_v2) [] (constructor true)
      = ([session_profile; network_by_id (VStr "ark.mainnet"); peer_current;
          client_changed],
         Ok (this, Ok VUndef)) ∧
    bound_to (VStr "http://1.2.3.4:4003") (VNum (Int 2)) fresh this.
Proof.
  refine (proj1 (constructor_binds_at_once (store_of mainnet_profile peer_v2)
    mainnet_profile (VStr "ark.mainnet") mainnet
    (VStr "https://explorer.ark.io:8443") (VNum (Int 1)) peer_v2
    _ _ _ _ _ _ _) _ "1.2.3.4" "4003" "2.1.0" _ _ _); reflexivity.
Defined.

(** X20: when the store has no network for the profile (the getter gives
    [undefined] or [null]), [profile_changed] fails with a type error
    before anything is bound: the client is as it was, the current peer is
    not read, and no ['client:changed'] is emitted. *)
Theorem unknown_network_leaves_binding w this profile networkId network :
  truthy profile = true →
  get_prop profile "networkId" = Ok networkId →
  w [] (network_by_id networkId) = Ok network →
  nullish network →
  run w [] (profile_changed this profile)
    = ([network_by_id networkId], Ok (this, Err TypeError)).
Proof.
  intros Hprofile HnetworkId Hnetwork Hnullish.
  unfold network_by_id in *.
  unfold profile_changed, attempt, get. rewrite Hprofile. cbn [negb].
  rewrite run_catch, run_lift_bind, HnetworkId, run_perform_bind, Hnetwork.
  by destruct Hnullish as [-> | ->].
Qed.

Lemma unknown_network_leaves_binding_witness :
  run (λ _ _, Ok VUndef) [] (profile_changed v1_client mainnet_profile)
    = ([network_by_id (VStr "ark.mainnet")], Ok (v1_client, Err TypeError)).
Proof.
  refine (unknown_network_leaves_binding (λ _ _, Ok VUndef) v1_client
            mainnet_profile (VStr "ark.mainnet") VUndef _ _ _ _);
    [reflexivity..|by left].
Defined.

End Construction.
